(** * Paystack payment routes: reconciliation state machine and webhook check

    Shallow embedding of the two Paystack payment routers of the repository:
    - [src/Routes/PaymentRoute.js]   (variant A)
    - [src/unnamed/part_004]         (variant B, the later revision)
    together with the transaction model of [src/unnamed/part_006] and the
    payment projection of [src/Models/Students.js].

    External collaborators the routes call are modelled as they behave:
    Node's [crypto.createHmac('sha512', secret)...digest('hex')], Express'
    [express.json()] body parser with [JSON.stringify], Mongoose's
    [findOneAndUpdate], [findByIdAndUpdate] (with [$addToSet]) and [save]. *)

From Stdlib Require Import ZArith List String Ascii Bool Lia.
Set Warnings "-register-all".
Import ListNotations.
Open Scope string_scope.
Open Scope list_scope.
Open Scope Z_scope.

(* ------------------------------------------------------------------ *)
(** ** SHA-512 and HMAC-SHA512 (Node's [crypto] module) *)

Module Sha512.

Definition mask64 : Z := Z.ones 64.
Definition add64 (a b : Z) : Z := Z.land (a + b) mask64.
Definition not64 (a : Z) : Z := Z.lxor a mask64.
Definition rotr (x : Z) (n : Z) : Z :=
  Z.lor (Z.shiftr x n) (Z.land (Z.shiftl x (64 - n)) mask64).

(** Integer cube root by bisection: the round constants are the first 64
    bits of the fractional parts of the cube roots of the first 80 primes,
    i.e. [icbrt (p * 2^192) mod 2^64]. *)
Fixpoint icbrt_go (fuel : nat) (lo hi n : Z) : Z :=
  match fuel with
  | O => lo
  | S f =>
      if hi - lo <=? 1 then lo
      else let mid := (lo + hi) / 2 in
           if mid * mid * mid <=? n then icbrt_go f mid hi n
           else icbrt_go f lo mid n
  end.
Definition icbrt (n : Z) : Z := icbrt_go 400 0 (2 ^ 70) n.

Fixpoint is_prime_go (fuel : nat) (d n : Z) : bool :=
  match fuel with
  | O => true
  | S f => if n <? d * d then true
           else if Z.eqb (n mod d) 0 then false else is_prime_go f (d + 1) n
  end.
Definition is_prime (n : Z) : bool := (2 <=? n) && is_prime_go 100 2 n.

Fixpoint primes_from (fuel : nat) (k : nat) (n : Z) : list Z :=
  match k, fuel with
  | O, _ | _, O => []
  | S k', S f =>
      if is_prime n then n :: primes_from f k' (n + 1) else primes_from f k (n + 1)
  end.
Definition primes (k : nat) : list Z := primes_from 1000 k 2.

Definition K : list Z :=
  map (fun p => Z.land (icbrt (p * 2 ^ 192)) mask64) (primes 80).
Definition H0 : list Z :=
  map (fun p => Z.land (Z.sqrt (p * 2 ^ 128)) mask64) (primes 8).

(** Big-endian bytes <-> 64-bit words. *)
Definition be_word (bs : list Z) : Z :=
  fold_left (fun acc b => acc * 256 + b) bs 0.
Fixpoint words_of (fuel : nat) (bs : list Z) : list Z :=
  match fuel with
  | O => []
  | S f => match bs with [] => [] | _ => be_word (firstn 8 bs) :: words_of f (skipn 8 bs) end
  end.
Fixpoint bytes_be (n : nat) (w : Z) : list Z :=
  match n with
  | O => []
  | S m => bytes_be m (Z.shiftr w 8) ++ [Z.land w 255]
  end.

Definition pad (msg : list Z) : list Z :=
  let l := Z.of_nat (List.length msg) in
  let zeros := (111 - l) mod 128 in
  msg ++ [128] ++ List.repeat 0 (Z.to_nat zeros) ++ bytes_be 16 (8 * l).

Definition bsig0 x := Z.lxor (Z.lxor (rotr x 28) (rotr x 34)) (rotr x 39).
Definition bsig1 x := Z.lxor (Z.lxor (rotr x 14) (rotr x 18)) (rotr x 41).
Definition ssig0 x := Z.lxor (Z.lxor (rotr x 1) (rotr x 8)) (Z.shiftr x 7).
Definition ssig1 x := Z.lxor (Z.lxor (rotr x 19) (rotr x 61)) (Z.shiftr x 6).
Definition ch x y z := Z.lxor (Z.land x y) (Z.land (not64 x) z).
Definition maj x y z := Z.lxor (Z.lxor (Z.land x y) (Z.land x z)) (Z.land y z).

(** Message schedule: 16 words extended to 80. *)
Fixpoint schedule (fuel : nat) (w : list Z) : list Z :=
  match fuel with
  | O => w
  | S f =>
      let n := List.length w in
      let wi := add64 (add64 (ssig1 (nth (n - 2) w 0)) (nth (n - 7) w 0))
                      (add64 (ssig0 (nth (n - 15) w 0)) (nth (n - 16) w 0)) in
      schedule f (w ++ [wi])
  end.

Definition round (st : list Z) (kw : Z * Z) : list Z :=
  match st with
  | [a; b; c; d; e; f; g; h] =>
      let t1 := add64 (add64 (add64 h (bsig1 e)) (add64 (ch e f g) (fst kw))) (snd kw) in
      let t2 := add64 (bsig0 a) (maj a b c) in
      [add64 t1 t2; a; b; c; add64 d t1; e; f; g]
  | _ => st
  end.

Definition compress (hs : list Z) (block : list Z) : list Z :=
  let w := schedule 64 (words_of 16 block) in
  let st := fold_left round (combine K w) hs in
  map (fun p => add64 (fst p) (snd p)) (combine hs st).

Fixpoint blocks (fuel : nat) (bs : list Z) : list (list Z) :=
  match fuel with
  | O => []
  | S f => match bs with [] => [] | _ => firstn 128 bs :: blocks f (skipn 128 bs) end
  end.

Definition sha512 (msg : list Z) : list Z :=
  let p := pad msg in
  let hs := fold_left compress (blocks (List.length p) p) H0 in
  flat_map (bytes_be 8) hs.

(** HMAC (RFC 2104) with a 128-byte block. *)
Definition hmac (key msg : list Z) : list Z :=
  let k := if (128 <? Z.of_nat (List.length key)) then sha512 key else key in
  let k := k ++ List.repeat 0 (128 - List.length k) in
  let ipad := map (Z.lxor 54) k in
  let opad := map (Z.lxor 92) k in
  sha512 (opad ++ sha512 (ipad ++ msg)).

End Sha512.

(** Strings as the byte strings Node hashes ([update(str)] encodes UTF-8;
    a [string] here is already its byte sequence). *)
Definition bytes_of_string (s : string) : list Z :=
  map (fun c => Z.of_nat (nat_of_ascii c)) (list_ascii_of_string s).

Definition hex_digit (n : Z) : ascii :=
  ascii_of_nat (Z.to_nat (if n <? 10 then 48 + n else 87 + n)).
Definition hex_of_bytes (bs : list Z) : string :=
  string_of_list_ascii
    (flat_map (fun b => [hex_digit (Z.shiftr b 4); hex_digit (Z.land b 15)]) bs).

(** [crypto.createHmac('sha512', secret).update(msg).digest('hex')] *)
Definition hmac_sha512_hex (secret msg : string) : string :=
  hex_of_bytes (Sha512.hmac (bytes_of_string secret) (bytes_of_string msg)).

(* ------------------------------------------------------------------ *)
(** ** JSON values, [express.json()] and [JSON.stringify] *)

(** A parsed JSON body.  Numbers are the integer literals of JSON: the
    modelled grammar is JSON without fractions, exponents and string
    escapes (the parser below returns [None] outside that fragment). *)
Inductive jv : Type :=
| JNull
| JBool (b : bool)
| JNum (n : Z)
| JStr (s : string)
| JArr (l : list jv)
| JObj (l : list (string * jv)).

Module Json.

Local Open Scope char_scope.

Definition is_ws (c : ascii) : bool :=
  match nat_of_ascii c with 32 | 9 | 10 | 13 => true | _ => false end%nat.
Definition is_digit (c : ascii) : bool :=
  (Nat.leb 48 (nat_of_ascii c) && Nat.leb (nat_of_ascii c) 57)%nat.
Definition digit_val (c : ascii) : Z := Z.of_nat (nat_of_ascii c) - 48.

Fixpoint skip_ws (cs : list ascii) : list ascii :=
  match cs with
  | c :: r => if is_ws c then skip_ws r else cs
  | [] => []
  end.

Fixpoint digits (cs : list ascii) (acc : Z) : Z * list ascii :=
  match cs with
  | c :: r => if is_digit c then digits r (acc * 10 + digit_val c) else (acc, cs)
  | [] => (acc, [])
  end.

(** An integer literal: an optional minus sign, then 0 or a nonzero digit
    followed by digits; a fraction or exponent after it is outside the
    fragment. *)
Definition parse_nat_lit (cs : list ascii) : option (Z * list ascii) :=
  match cs with
  | c :: r =>
      if Ascii.eqb c "0" then
        match r with
        | d :: _ => if is_digit d then None else Some (0, r)
        | [] => Some (0, r)
        end
      else if is_digit c then Some (digits r (digit_val c)) else None
  | [] => None
  end.

Definition no_frac (p : option (Z * list ascii)) : option (Z * list ascii) :=
  match p with
  | Some (_, c :: _) =>
      if (Ascii.eqb c "." || Ascii.eqb c "e" || Ascii.eqb c "E")%bool then None else p
  | _ => p
  end.

Definition parse_number (cs : list ascii) : option (Z * list ascii) :=
  match cs with
  | c :: r =>
      if Ascii.eqb c "-" then
        no_frac (option_map (fun p => (- fst p, snd p)) (parse_nat_lit r))
      else no_frac (parse_nat_lit cs)
  | [] => None
  end.

(** String body after the opening quote: no escapes, no control characters. *)
Fixpoint parse_chars (cs : list ascii) (acc : list ascii) : option (string * list ascii) :=
  match cs with
  | [] => None
  | c :: r =>
      if Ascii.eqb c "034" then Some (string_of_list_ascii (rev acc), r)
      else if Ascii.eqb c "\" then None
      else if Nat.ltb (nat_of_ascii c) 32 then None
      else parse_chars r (c :: acc)
  end.

(** Property assignment of [JSON.parse]: a repeated key keeps its first
    position and takes the last value. *)
Fixpoint obj_set (l : list (string * jv)) (k : string) (v : jv) : list (string * jv) :=
  match l with
  | [] => [(k, v)]
  | (k', v') :: r => if String.eqb k k' then (k, v) :: r else (k', v') :: obj_set r k v
  end.

Fixpoint parse_value (fuel : nat) (cs : list ascii) : option (jv * list ascii) :=
  match fuel with
  | O => None
  | S f =>
    match skip_ws cs with
    | "n" :: "u" :: "l" :: "l" :: r => Some (JNull, r)
    | "t" :: "r" :: "u" :: "e" :: r => Some (JBool true, r)
    | "f" :: "a" :: "l" :: "s" :: "e" :: r => Some (JBool false, r)
    | "034" :: r => option_map (fun p => (JStr (fst p), snd p)) (parse_chars r [])
    | "[" :: r =>
        match skip_ws r with
        | "]" :: r' => Some (JArr [], r')
        | _ => parse_elems f r []
        end
    | "{" :: r =>
        match skip_ws r with
        | "}" :: r' => Some (JObj [], r')
        | _ => parse_members f r []
        end
    | cs' => option_map (fun p => (JNum (fst p), snd p)) (parse_number cs')
    end
  end
with parse_elems (fuel : nat) (cs : list ascii) (acc : list jv) : option (jv * list ascii) :=
  match fuel with
  | O => None
  | S f =>
    match parse_value f cs with
    | None => None
    | Some (v, r) =>
        match skip_ws r with
        | "," :: r' => parse_elems f r' (acc ++ [v])
        | "]" :: r' => Some (JArr (acc ++ [v]), r')
        | _ => None
        end
    end
  end
with parse_members (fuel : nat) (cs : list ascii) (acc : list (string * jv))
  : option (jv * list ascii) :=
  match fuel with
  | O => None
  | S f =>
    match skip_ws cs with
    | "034" :: r =>
        match parse_chars r [] with
        | None => None
        | Some (k, r1) =>
            match skip_ws r1 with
            | ":" :: r2 =>
                match parse_value f r2 with
                | None => None
                | Some (v, r3) =>
                    match skip_ws r3 with
                    | "," :: r4 => parse_members f r4 (obj_set acc k v)
                    | "}" :: r4 => Some (JObj (obj_set acc k v), r4)
                    | _ => None
                    end
                end
            | _ => None
            end
        end
    | _ => None
    end
  end.

(** [JSON.parse(text)]: one value, surrounded by whitespace only. *)
Definition parse (s : string) : option jv :=
  let cs := list_ascii_of_string s in
  match parse_value (S (List.length cs)) cs with
  | Some (v, r) => match skip_ws r with [] => Some v | _ => None end
  | None => None
  end.

(** [express.json()] (body-parser, [strict: true]): an empty body becomes
    [{}]; otherwise the first non-blank character must be '{' or '[' and the
    text goes to [JSON.parse]; [None] is the parser's 400 error. *)
Definition body_parse (raw : string) : option jv :=
  let cs := list_ascii_of_string raw in
  match cs with
  | [] => Some (JObj [])
  | _ =>
      match skip_ws cs with
      | "{" :: _ | "[" :: _ => parse raw
      | _ => None
      end
  end.

Local Close Scope char_scope.

(** [JSON.stringify] *)
Fixpoint dec_digits (fuel : nat) (n : Z) (acc : string) : string :=
  match fuel with
  | O => acc
  | S f =>
      let acc' := String (ascii_of_nat (Z.to_nat (48 + n mod 10))) acc in
      if n <? 10 then acc' else dec_digits f (n / 10) acc'
  end.
Definition show_Z (n : Z) : string :=
  if n <? 0 then String "-"%char (dec_digits 64 (- n) EmptyString)
  else dec_digits 64 n EmptyString.

Definition escape_char (c : ascii) : string :=
  let n := nat_of_ascii c in
  if Ascii.eqb c "034"%char then String "\"%char (String "034"%char EmptyString)
  else if Ascii.eqb c "\"%char then String "\"%char (String "\"%char EmptyString)
  else if Nat.eqb n 8 then "\b"
  else if Nat.eqb n 9 then "\t"
  else if Nat.eqb n 10 then "\n"
  else if Nat.eqb n 12 then "\f"
  else if Nat.eqb n 13 then "\r"
  else if Nat.ltb n 32 then
    String.append "\u00" (hex_of_bytes [Z.of_nat n])
  else String c EmptyString.

Definition quote (s : string) : string :=
  String "034"%char
    (String.append (String.concat "" (map escape_char (list_ascii_of_string s)))
       (String "034"%char EmptyString)).

(** Property order of an object: array-index keys (canonical decimal, below
    2^32 - 1) ascending, then the other keys in insertion order. *)
Definition index_key (k : string) : option Z :=
  match list_ascii_of_string k with
  | [] => None
  | cs =>
      if forallb is_digit cs then
        let n := fst (digits cs 0) in
        if String.eqb (show_Z n) k && (n <? 2 ^ 32 - 1) then Some n else None
      else None
  end.

Fixpoint insert_idx (n : Z) (p : string * string) (l : list (Z * (string * string)))
  : list (Z * (string * string)) :=
  match l with
  | [] => [(n, p)]
  | (m, q) :: r => if n <? m then (n, p) :: l else (m, q) :: insert_idx n p r
  end.

Definition order_props (ps : list (string * string)) : list (string * string) :=
  let idx := fold_left (fun acc p => match index_key (fst p) with
                                     | Some n => insert_idx n p acc
                                     | None => acc end) ps [] in
  map snd idx ++ filter (fun p => match index_key (fst p) with Some _ => false | None => true end) ps.

Fixpoint stringify (v : jv) : string :=
  match v with
  | JNull => "null"
  | JBool true => "true"
  | JBool false => "false"
  | JNum n => show_Z n
  | JStr s => quote s
  | JArr l => String.append "[" (String.append (String.concat "," (map stringify l)) "]")
  | JObj l =>
      let ps := map (fun kv => (fst kv, stringify (snd kv))) l in
      String.append "{"
        (String.append
           (String.concat "," (map (fun p => String.append (quote (fst p)) (String.append ":" (snd p)))
                                   (order_props ps))) "}")
  end.

End Json.

(** JSON text written with ' for each double quote. *)
Definition dq (s : string) : string :=
  string_of_list_ascii
    (map (fun c => if Ascii.eqb c "'"%char then "034"%char else c) (list_ascii_of_string s)).

(* ------------------------------------------------------------------ *)
(** ** JavaScript semantics the handlers rely on *)

(** A property read yields [None] for [undefined]. *)
Definition jsval := option jv.

(** Falsy values: undefined, null, false, 0, "" (NaN is not a value of the
    fragment). *)
Definition truthy (v : jsval) : bool :=
  match v with
  | None | Some JNull | Some (JBool false) | Some (JNum Z0) | Some (JStr EmptyString) => false
  | _ => true
  end.

(** [v === s] for a string literal [s]. *)
Definition is_str (v : jsval) (s : string) : bool :=
  match v with Some (JStr s') => String.eqb s' s | _ => false end.

Fixpoint assoc (k : string) (l : list (string * jv)) : jsval :=
  match l with
  | [] => None
  | (k', v) :: r => if String.eqb k k' then Some v else assoc k r
  end.

(** [o.k] on a value that is not undefined or null (the handlers read only
    non-index keys other than [length], which primitives and arrays do not
    have). *)
Definition prop (v : jv) (k : string) : jsval :=
  match v with JObj l => assoc k l | _ => None end.

(** [o?.k] *)
Definition getq (o : jsval) (k : string) : jsval :=
  match o with None | Some JNull => None | Some v => prop v k end.

(** [String(v)] as a template literal renders it. *)
Fixpoint js_to_string (v : jv) : string :=
  match v with
  | JNull => "null"
  | JBool true => "true"
  | JBool false => "false"
  | JNum n => Json.show_Z n
  | JStr s => s
  | JArr l => String.concat "," (map (fun x => match x with JNull => ""%string | _ => js_to_string x end) l)
  | JObj _ => "[object Object]"
  end.
Definition js_str (v : jsval) : string :=
  match v with None => "undefined" | Some v => js_to_string v end.

(** [`Fee payment for ${semester} ${academic_year}`] *)
Definition fee_description (semester academic_year : jsval) : jv :=
  JStr (String.append "Fee payment for "
          (String.append (js_str semester) (String.append " " (js_str academic_year)))).

(* ------------------------------------------------------------------ *)
(** ** Documents: transactions ([Models/Payment], Paystack revision) and
    the payment fields of a student ([Models/Students]) *)

Record txn := mkTxn {
  t_id : nat;
  t_studentId : string;
  t_paystackReference : string;
  t_amount : Z;
  t_currency : string;
  t_status : string;
  t_semester : string;
  t_academicYear : string;
  t_description : option string;
  t_paidAt : jsval;
  t_createdAt : Z;
  t_updatedAt : Z
}.

Record student := mkStudent {
  s_id : string;
  s_currentSemesterPaymentStatus : string;
  s_lastPaidSemester : option string;
  s_lastPaidAcademicYear : option string;
  s_paymentHistory : list (option nat)   (* ObjectIds; [None] is null *)
}.

(** The database, the clock read by [Date.now()], and whether MongoDB is
    reachable (when it is not, every query throws). *)
Record st := mkSt {
  payments : list txn;
  students : list student;
  next_id : nat;
  clock : Z;
  db_up : bool
}.

Inductive exn :=
| TypeError        (* property read on undefined or null *)
| ReferenceError   (* read of an undeclared variable *)
| CastError        (* Mongoose cast of a query or update value *)
| ValidationError  (* Mongoose schema validation on save *)
| MongoError       (* database unreachable *)
| DuplicateKey     (* E11000: the unique index on paystackReference *)
| AxiosError.      (* the HTTP call to Paystack rejected *)

(* ------------------------------------------------------------------ *)
(** ** A state and exception monad for the async handlers *)

Definition M (A : Type) : Type := st -> (exn + A) * st.

Definition ret {A} (a : A) : M A := fun s => (inr a, s).
Definition bind {A B} (m : M A) (k : A -> M B) : M B :=
  fun s => match m s with
           | (inl e, s') => (inl e, s')
           | (inr a, s') => k a s'
           end.
Definition throw {A} (e : exn) : M A := fun s => (inl e, s).
(** [try { m } catch (e) { h(e) }]: effects of [m] before the throw stay. *)
Definition catch {A} (m : M A) (h : exn -> M A) : M A :=
  fun s => match m s with
           | (inl e, s') => h e s'
           | r => r
           end.
Definition get : M st := fun s => (inr s, s).
Definition put (s : st) : M unit := fun _ => (inr tt, s).

Notation "x <- m ;; k" := (bind m (fun x => k))
  (at level 61, m at next level, right associativity).

(** [o.k]: a TypeError on undefined or null. *)
Definition getp (o : jsval) (k : string) : M jsval :=
  match o with
  | None | Some JNull => throw TypeError
  | Some v => ret (prop v k)
  end.

Definition now : M Z := s <- get ;; ret (clock s).

Definition db_check : M unit :=
  s <- get ;; if db_up s then ret tt else throw MongoError.

(** A fresh ObjectId, assigned when a document is constructed. *)
Definition fresh_id : M nat :=
  s <- get ;;
  _ <- put {| payments := payments s; students := students s; next_id := S (next_id s);
              clock := clock s; db_up := db_up s |} ;;
  ret (next_id s).

(* ------------------------------------------------------------------ *)
(** ** Mongoose operations *)

(** Cast to a String path. *)
Definition cast_str (v : jv) : option string :=
  match v with
  | JStr s => Some s
  | JNum n => Some (Json.show_Z n)
  | JBool true => Some "true"
  | JBool false => Some "false"
  | _ => None
  end.

(** A filter value: undefined and null match no stored document (the
    fields queried are required); anything else is cast or a CastError. *)
Definition filter_str (v : jsval) : M (option string) :=
  match v with
  | None | Some JNull => ret None
  | Some x => match cast_str x with Some s => ret (Some s) | None => throw CastError end
  end.

(** An ObjectId filter ([findById]): a string id, or a CastError. *)
Definition filter_oid (v : jsval) : M (option string) :=
  match v with
  | None | Some JNull => ret None
  | Some (JStr s) => ret (Some s)
  | Some _ => throw CastError
  end.

(** An update value for an optional String path (null when absent). *)
Definition cast_opt (v : jsval) : M (option string) :=
  match v with
  | None | Some JNull => ret None
  | Some x => match cast_str x with Some s => ret (Some s) | None => throw CastError end
  end.

Fixpoint update_first (k : string) (f : txn -> txn) (l : list txn) : option txn * list txn :=
  match l with
  | [] => (None, [])
  | t :: r =>
      if String.eqb (t_paystackReference t) k then (Some (f t), f t :: r)
      else let '(o, r') := update_first k f r in (o, t :: r')
  end.

(** [Payment.findOneAndUpdate({ paystackReference: ref }, upd, { new: true })]:
    the first match is updated; no upsert. *)
Definition find_one_and_update (ref : jsval) (f : txn -> txn) : M (option txn) :=
  key <- filter_str ref ;;
  _ <- db_check ;;
  match key with
  | None => ret None
  | Some k =>
      s <- get ;;
      let '(o, ps) := update_first k f (payments s) in
      _ <- put {| payments := ps; students := students s; next_id := next_id s;
                  clock := clock s; db_up := db_up s |} ;;
      ret o
  end.

(** [{ status: 'success', paidAt: paid_at, updatedAt: Date.now() }] *)
Definition set_success (paid_at : jsval) (now : Z) (t : txn) : txn :=
  {| t_id := t_id t; t_studentId := t_studentId t; t_paystackReference := t_paystackReference t;
     t_amount := t_amount t; t_currency := t_currency t; t_status := "success";
     t_semester := t_semester t; t_academicYear := t_academicYear t;
     t_description := t_description t; t_paidAt := paid_at;
     t_createdAt := t_createdAt t; t_updatedAt := now |}.

(** [{ status: 'failed', updatedAt: Date.now() }] *)
Definition set_failed (now : Z) (t : txn) : txn :=
  {| t_id := t_id t; t_studentId := t_studentId t; t_paystackReference := t_paystackReference t;
     t_amount := t_amount t; t_currency := t_currency t; t_status := "failed";
     t_semester := t_semester t; t_academicYear := t_academicYear t;
     t_description := t_description t; t_paidAt := t_paidAt t;
     t_createdAt := t_createdAt t; t_updatedAt := now |}.

Definition opt_nat_eqb (a b : option nat) : bool :=
  match a, b with
  | None, None => true
  | Some x, Some y => Nat.eqb x y
  | _, _ => false
  end.

(** [$addToSet]: append unless already present. *)
Definition add_to_set (x : option nat) (l : list (option nat)) : list (option nat) :=
  if existsb (opt_nat_eqb x) l then l else l ++ [x].

(** [{ currentSemesterPaymentStatus: 'paid', lastPaidSemester: semester,
       lastPaidAcademicYear: academic_year, $addToSet: { paymentHistory: pid } }] *)
Definition mark_paid (sem yr : option string) (pid : option nat) (s : student) : student :=
  {| s_id := s_id s; s_currentSemesterPaymentStatus := "paid";
     s_lastPaidSemester := sem; s_lastPaidAcademicYear := yr;
     s_paymentHistory := add_to_set pid (s_paymentHistory s) |}.

Fixpoint update_student (k : string) (f : student -> student) (l : list student)
  : option student * list student :=
  match l with
  | [] => (None, [])
  | x :: r =>
      if String.eqb (s_id x) k then (Some (f x), f x :: r)
      else let '(o, r') := update_student k f r in (o, x :: r')
  end.

(** [Student.findByIdAndUpdate(id, upd)]: no document, no change. *)
Definition student_find_by_id_and_update (id : jsval) (f : student -> student)
  : M (option student) :=
  key <- filter_oid id ;;
  _ <- db_check ;;
  match key with
  | None => ret None
  | Some k =>
      s <- get ;;
      let '(o, ss) := update_student k f (students s) in
      _ <- put {| payments := payments s; students := ss; next_id := next_id s;
                  clock := clock s; db_up := db_up s |} ;;
      ret o
  end.

(** The projection update shared by every success path. *)
Definition student_mark_paid (student_id semester academic_year : jsval) (pid : option nat)
  : M unit :=
  sem <- cast_opt semester ;;
  yr <- cast_opt academic_year ;;
  _ <- student_find_by_id_and_update student_id (mark_paid sem yr pid) ;;
  ret tt.

Fixpoint find_student (k : string) (l : list student) : option student :=
  match l with
  | [] => None
  | x :: r => if String.eqb (s_id x) k then Some x else find_student k r
  end.

(** [Student.findById(id)] *)
Definition student_find_by_id (id : jsval) : M (option student) :=
  key <- filter_oid id ;;
  _ <- db_check ;;
  match key with
  | None => ret None
  | Some k => s <- get ;; ret (find_student k (students s))
  end.

(** The fields given to [new Payment({...})]. *)
Record draft := mkDraft {
  d_studentId : jsval;
  d_paystackReference : jsval;
  d_amount : jsval;
  d_currency : jsval;
  d_status : string;
  d_semester : jsval;
  d_academicYear : jsval;
  d_description : jsval;
  d_paidAt : jsval
}.

(** [required: true] on a String path: present, castable, not empty. *)
Definition req_string (v : jsval) : option string :=
  match v with
  | Some x => match cast_str x with Some EmptyString => None | o => o end
  | None => None
  end.
Definition req_oid (v : jsval) : option string :=
  match v with Some (JStr s) => if String.eqb s "" then None else Some s | _ => None end.
Definition req_number (v : jsval) : option Z :=
  match v with Some (JNum n) => Some n | _ => None end.
Definition opt_string (v : jsval) : option (option string) :=
  match v with
  | None | Some JNull => Some None
  | Some x => option_map Some (cast_str x)
  end.
(** [default: 'NGN'] applies when the value is undefined. *)
Definition with_default (v : jsval) (d : string) : jsval :=
  match v with None => Some (JStr d) | _ => v end.

(** Casting and validation of the paymentSchema of [unnamed/part_006]. *)
Definition validate (id : nat) (now : Z) (d : draft) : option txn :=
  match req_oid (d_studentId d), req_string (d_paystackReference d), req_number (d_amount d),
        req_string (with_default (d_currency d) "NGN"), req_string (d_semester d),
        req_string (d_academicYear d), opt_string (d_description d) with
  | Some sid, Some r, Some a, Some c, Some sem, Some yr, Some desc =>
      Some {| t_id := id; t_studentId := sid; t_paystackReference := r; t_amount := a;
              t_currency := c; t_status := d_status d; t_semester := sem;
              t_academicYear := yr; t_description := desc; t_paidAt := d_paidAt d;
              t_createdAt := now; t_updatedAt := now |}
  | _, _, _, _, _, _, _ => None
  end.

(** [doc.save()]: validation, then the insert under the unique index on
    [paystackReference]. *)
Definition payment_save (id : nat) (d : draft) : M txn :=
  n <- now ;;
  match validate id n d with
  | None => throw ValidationError
  | Some t =>
      _ <- db_check ;;
      s <- get ;;
      if existsb (fun t' => String.eqb (t_paystackReference t') (t_paystackReference t)) (payments s)
      then throw DuplicateKey
      else _ <- put {| payments := payments s ++ [t]; students := students s;
                       next_id := next_id s; clock := clock s; db_up := db_up s |} ;;
           ret t
  end.

(* ------------------------------------------------------------------ *)
(** ** HTTP responses *)

Inductive response :=
| JsonResp (code : Z) (body : jv)      (* res.status(code).json(body) *)
| TextResp (code : Z) (body : string)  (* res.status(code).send(text) *)
| NoResponse.                          (* an exception escaped the async handler *)

(** [res.json] drops undefined properties. *)
Definition obj (l : list (string * jsval)) : jv :=
  JObj (flat_map (fun kv => match snd kv with Some v => [(fst kv, v)] | None => [] end) l).
Definition message (m : string) : jv := JObj [("message", JStr m)].
Definition received : jv := JObj [("received", JBool true)].
Definition received_msg (m : string) : jv :=
  JObj [("received", JBool true); ("message", JStr m)].

Definition opt_json_str (o : option string) : jv :=
  match o with Some s => JStr s | None => JNull end.
Definition txn_json (t : txn) : jv :=
  obj [("_id", Some (JNum (Z.of_nat (t_id t))));
       ("studentId", Some (JStr (t_studentId t)));
       ("paystackReference", Some (JStr (t_paystackReference t)));
       ("amount", Some (JNum (t_amount t)));
       ("currency", Some (JStr (t_currency t)));
       ("status", Some (JStr (t_status t)));
       ("semester", Some (JStr (t_semester t)));
       ("academicYear", Some (JStr (t_academicYear t)));
       ("description", option_map JStr (t_description t));
       ("paidAt", t_paidAt t);
       ("createdAt", Some (JNum (t_createdAt t)));
       ("updatedAt", Some (JNum (t_updatedAt t)))].

(** Running a handler: the response sent and the database afterwards. *)
Definition run (m : M response) (s : st) : response * st :=
  match m s with
  | (inl _, s') => (NoResponse, s')
  | (inr r, s') => (r, s')
  end.

(** [protect]: a Bearer authorization header, else 401. *)
Definition protect (authorization : option string) (h : M response) : M response :=
  match authorization with
  | Some a => if String.prefix "Bearer" a then h
              else ret (JsonResp 401 (message "Not authorized, no token"))
  | None => ret (JsonResp 401 (message "Not authorized, no token"))
  end.

(* ------------------------------------------------------------------ *)
(** ** Webhook signature check (both variants) *)

(** [crypto.createHmac('sha512', secret).update(JSON.stringify(req.body))
     .digest('hex') == req.headers['x-paystack-signature']], where
    [req.body] is what [express.json()] parsed. *)
Definition signature_ok (secret : string) (body : jv) (header : option string) : bool :=
  match header with
  | Some h => String.eqb (hmac_sha512_hex secret (Json.stringify body)) h
  | None => false
  end.

(** [router.post('/webhook', express.json(), ...)]: the parser's error
    reaches Express' default handler (400); then the signature gate. *)
Definition webhook (handler : jv -> M response) (secret raw : string) (header : option string)
  : M response :=
  match Json.body_parse raw with
  | None => ret (TextResp 400 "Bad Request")
  | Some body =>
      if signature_ok secret body header then handler body
      else ret (TextResp 400 "Invalid signature")
  end.

(* ------------------------------------------------------------------ *)
(** ** Variant A: [src/Routes/PaymentRoute.js] *)

Module VariantA.

(** Lines 173-222: the try block of the [charge.success] branch. *)
Definition charge_success (data reference student_id semester academic_year : jsval) : M unit :=
  paid_at <- getp data "paid_at" ;;
  n <- now ;;
  updated <- find_one_and_update reference (set_success paid_at n) ;;
  match updated with
  | Some t => student_mark_paid student_id semester academic_year (Some (t_id t))
  | None =>
      amount <- getp data "amount" ;;
      currency <- getp data "currency" ;;
      md <- getp data "metadata" ;;
      mdesc <- getp md "description" ;;
      (* [paystackData.metadata.description || `Fee payment for ${semester}
         ${academicYear}`]: [academicYear] is not declared in this handler. *)
      description <- (if truthy mdesc then ret mdesc else throw ReferenceError) ;;
      id <- fresh_id ;;
      _ <- payment_save id {| d_studentId := student_id; d_paystackReference := reference;
                              d_amount := amount; d_currency := currency; d_status := "success";
                              d_semester := semester; d_academicYear := academic_year;
                              d_description := description; d_paidAt := paid_at |} ;;
      student_mark_paid student_id semester academic_year (Some id)
  end.

(** Lines 166-243: the handler once the signature matched. *)
Definition webhook_event (event : jv) : M response :=
  ev <- getp (Some event) "event" ;;
  if is_str ev "charge.success" then
    data <- getp (Some event) "data" ;;
    reference <- getp data "reference" ;;
    md <- getp data "metadata" ;;
    student_id <- getp md "student_id" ;;
    semester <- getp md "semester" ;;
    academic_year <- getp md "academic_year" ;;
    catch (_ <- charge_success data reference student_id semester academic_year ;;
           ret (JsonResp 200 received))
          (fun _ => ret (JsonResp 500 (received_msg "Database update failed")))
  else if is_str ev "charge.failed" then
    data <- getp (Some event) "data" ;;
    reference <- getp data "reference" ;;
    catch (n <- now ;;
           _ <- find_one_and_update reference (set_failed n) ;;
           ret (JsonResp 200 received))
          (fun _ => ret (JsonResp 500 (received_msg "Database update failed for failed payment")))
  else ret (JsonResp 200 received).

Definition webhook_route (secret raw : string) (header : option string) : M response :=
  webhook webhook_event secret raw header.

(** Lines 109-155: [GET /verify-payment/:reference] after [protect];
    [gateway] is the body of Paystack's verify response ([None]: axios
    rejected).  The 500 body's [error] detail is not modelled. *)
Definition verify_payment (reference : string) (gateway : option jv) : M response :=
  catch (
    body <- (match gateway with Some b => ret b | None => throw AxiosError end) ;;
    paystackData <- getp (Some body) "data" ;;
    ok <- (if truthy paystackData
           then status <- getp paystackData "status" ;; ret (is_str status "success")
           else ret false) ;;
    if ok then
      md <- getp paystackData "metadata" ;;
      student_id <- getp md "student_id" ;;
      semester <- getp md "semester" ;;
      academic_year <- getp md "academic_year" ;;
      paid_at <- getp paystackData "paid_at" ;;
      n <- now ;;
      updated <- find_one_and_update (Some (JStr reference)) (set_success paid_at n) ;;
      (* [updatedPayment._id] *)
      t <- (match updated with Some t => ret t | None => throw TypeError end) ;;
      _ <- student_mark_paid student_id semester academic_year (Some (t_id t)) ;;
      ret (JsonResp 200 (JObj [("message", JStr "Payment verified successfully.");
                               ("payment", txn_json t)]))
    else
      gr <- getp paystackData "gateway_response" ;;
      ret (JsonResp 400 (JObj [("message", JStr "Payment verification failed.");
                               ("details", if truthy gr then match gr with Some g => g | None => JNull end
                                           else JStr "Unknown status")])))
  (fun _ => ret (JsonResp 500 (message "Failed to verify payment."))).

Definition verify_route (authorization : option string) (reference : string) (gateway : option jv)
  : M response :=
  protect authorization (verify_payment reference gateway).

(** [Number(v)] on the fragment ([None] is NaN): integer literals in
    strings, booleans, null, arrays through their string form. *)
Definition string_to_number (s : string) : option Z :=
  let cs := Json.skip_ws (rev (Json.skip_ws (rev (list_ascii_of_string s)))) in
  match cs with
  | [] => Some 0
  | _ => match Json.parse_number cs with Some (n, []) => Some n | _ => None end
  end.
Definition to_number (v : jsval) : option Z :=
  match v with
  | None => None
  | Some JNull => Some 0
  | Some (JBool b) => Some (if b then 1 else 0)
  | Some (JNum n) => Some n
  | Some (JStr s) => string_to_number s
  | Some (JArr l) => string_to_number (js_to_string (JArr l))
  | Some (JObj _) => None
  end.
(** [amount <= 0]: false on NaN. *)
Definition le_zero (v : jsval) : bool :=
  match to_number v with Some n => n <=? 0 | None => false end.

(** Lines 30-104: [POST /initiate-payment] after [protect]; [gateway] is
    the body of Paystack's initialize response ([None]: axios rejected). *)
Definition initiate_payment (body : jv) (gateway : option jv) : M response :=
  amount <- getp (Some body) "amount" ;;
  studentId <- getp (Some body) "studentId" ;;
  semester <- getp (Some body) "semester" ;;
  academicYear <- getp (Some body) "academicYear" ;;
  description <- getp (Some body) "description" ;;
  email <- getp (Some body) "email" ;;
  if negb (truthy amount) || negb (truthy studentId) || negb (truthy semester)
     || negb (truthy academicYear) || negb (truthy email) then
    ret (JsonResp 400 (message "Missing required payment details (amount, studentId, semester, academicYear, email)."))
  else if le_zero amount then
    ret (JsonResp 400 (message "Amount must be positive."))
  else
    catch (
      student <- student_find_by_id studentId ;;
      match student with
      | None => ret (JsonResp 404 (message "Student not found."))
      | Some stu =>
          (* [Math.round(amount * 100)] *)
          let amountInKobo := option_map (fun a => a * 100) (to_number amount) in
          resp <- (match gateway with Some r => ret r | None => throw AxiosError end) ;;
          ok <- (if truthy (Some resp)
                 then status <- getp (Some resp) "status" ;; ret (truthy status)
                 else ret false) ;;
          if ok then
            paystackData <- getp (Some resp) "data" ;;
            reference <- getp paystackData "reference" ;;
            id <- fresh_id ;;
            _ <- payment_save id
                   {| d_studentId := Some (JStr (s_id stu)); d_paystackReference := reference;
                      d_amount := option_map JNum amountInKobo; d_currency := Some (JStr "NGN");
                      d_status := "pending"; d_semester := semester; d_academicYear := academicYear;
                      d_description := if truthy description then description
                                       else Some (fee_description semester academicYear);
                      d_paidAt := None |} ;;
            authorization_url <- getp paystackData "authorization_url" ;;
            access_code <- getp paystackData "access_code" ;;
            reference' <- getp paystackData "reference" ;;
            ret (JsonResp 200 (obj [("authorization_url", authorization_url);
                                    ("access_code", access_code);
                                    ("reference", reference');
                                    ("paymentId", Some (JNum (Z.of_nat id)))]))
          else
            details <- getp (Some resp) "message" ;;
            ret (JsonResp 500 (obj [("message", Some (JStr "Failed to initiate payment with Paystack."));
                                    ("details", details)]))
      end)
    (fun _ => ret (JsonResp 500 (message "Failed to initiate payment."))).

Definition initiate_route (authorization : option string) (body : jv) (gateway : option jv)
  : M response :=
  protect authorization (initiate_payment body gateway).

End VariantA.

(* ------------------------------------------------------------------ *)
(** ** Variant B: [src/unnamed/part_004] *)

Module VariantB.

(** Lines 203-254: the try block of the [charge.success] branch. *)
Definition charge_success (data reference student_id semester academic_year description : jsval)
  : M unit :=
  paid_at <- getp data "paid_at" ;;
  n <- now ;;
  updated <- find_one_and_update reference (set_success paid_at n) ;;
  match updated with
  | Some t => student_mark_paid student_id semester academic_year (Some (t_id t))
  | None =>
      amount <- getp data "amount" ;;
      currency <- getp data "currency" ;;
      let desc := if truthy description then description
                  else Some (fee_description semester academic_year) in
      id <- fresh_id ;;
      _ <- payment_save id {| d_studentId := student_id; d_paystackReference := reference;
                              d_amount := amount; d_currency := currency; d_status := "success";
                              d_semester := semester; d_academicYear := academic_year;
                              d_description := desc; d_paidAt := paid_at |} ;;
      student_mark_paid student_id semester academic_year (Some id)
  end.

(** Lines 186-275: the handler once the signature matched. *)
Definition webhook_event (event : jv) : M response :=
  ev <- getp (Some event) "event" ;;
  if is_str ev "charge.success" then
    data <- getp (Some event) "data" ;;
    reference <- getp data "reference" ;;
    md1 <- getp data "metadata" ;;
    let student_id := getq md1 "student_id" in
    md2 <- getp data "metadata" ;;
    let semester := getq md2 "semester" in
    md3 <- getp data "metadata" ;;
    let academic_year := getq md3 "academic_year" in
    md4 <- getp data "metadata" ;;
    let description := getq md4 "description" in
    if negb (truthy student_id) || negb (truthy semester) || negb (truthy academic_year) then
      ret (JsonResp 400 (received_msg "Missing metadata"))
    else
      catch (_ <- charge_success data reference student_id semester academic_year description ;;
             ret (JsonResp 200 received))
            (fun _ => ret (JsonResp 500 (received_msg "Database update failed")))
  else if is_str ev "charge.failed" then
    data <- getp (Some event) "data" ;;
    reference <- getp data "reference" ;;
    catch (n <- now ;;
           _ <- find_one_and_update reference (set_failed n) ;;
           ret (JsonResp 200 received))
          (fun _ => ret (JsonResp 500 (received_msg "Database update failed for failed payment")))
  else ret (JsonResp 200 received).

Definition webhook_route (secret raw : string) (header : option string) : M response :=
  webhook webhook_event secret raw header.

(** Lines 120-175: [GET /verify-payment/:reference] after [protect]. *)
Definition verify_payment (reference : string) (gateway : option jv) : M response :=
  catch (
    body <- (match gateway with Some b => ret b | None => throw AxiosError end) ;;
    paystackData <- getp (Some body) "data" ;;
    ok <- (if truthy paystackData
           then status <- getp paystackData "status" ;; ret (is_str status "success")
           else ret false) ;;
    if ok then
      md <- getp paystackData "metadata" ;;
      student_id <- getp md "student_id" ;;
      semester <- getp md "semester" ;;
      academic_year <- getp md "academic_year" ;;
      paid_at <- getp paystackData "paid_at" ;;
      n <- now ;;
      updated <- find_one_and_update (Some (JStr reference)) (set_success paid_at n) ;;
      (* [updatedTransaction ? updatedTransaction._id : null] *)
      _ <- student_mark_paid student_id semester academic_year (option_map t_id updated) ;;
      ret (JsonResp 200 (JObj [("message", JStr "Payment verified successfully.");
                               ("payment", match updated with Some t => txn_json t | None => JNull end)]))
    else
      gr <- getp paystackData "gateway_response" ;;
      ret (JsonResp 400 (JObj [("message", JStr "Payment verification failed.");
                               ("details", if truthy gr then match gr with Some g => g | None => JNull end
                                           else JStr "Unknown status")])))
  (fun _ => ret (JsonResp 500 (message "Failed to verify payment."))).

Definition verify_route (authorization : option string) (reference : string) (gateway : option jv)
  : M response :=
  protect authorization (verify_payment reference gateway).

(** Lines 30-115: [POST /initiate-payment] after [protect]; [gateway] is
    the body of Paystack's initialize response ([None]: axios rejected).
    [callback_url] is only forwarded to Paystack.  The [error] detail of
    the 409 and 500 bodies of the catch block is not modelled. *)
Definition initiate_payment (body : jv) (gateway : option jv) : M response :=
  amount <- getp (Some body) "amount" ;;
  studentId <- getp (Some body) "studentId" ;;
  semester <- getp (Some body) "semester" ;;
  academicYear <- getp (Some body) "academicYear" ;;
  description <- getp (Some body) "description" ;;
  email <- getp (Some body) "email" ;;
  _ <- getp (Some body) "callback_url" ;;
  if negb (truthy amount) || negb (truthy studentId) || negb (truthy semester)
     || negb (truthy academicYear) || negb (truthy email) then
    ret (JsonResp 400 (message "Missing required payment details (amount, studentId, semester, academicYear, email)."))
  else if VariantA.le_zero amount then
    ret (JsonResp 400 (message "Amount must be positive."))
  else
    catch (
      student <- student_find_by_id studentId ;;
      match student with
      | None => ret (JsonResp 404 (message "Student not found."))
      | Some stu =>
          (* [Math.round(amount * 100)] *)
          let amountInKobo := option_map (fun a => a * 100) (VariantA.to_number amount) in
          resp <- (match gateway with Some r => ret r | None => throw AxiosError end) ;;
          ok <- (if truthy (Some resp)
                 then status <- getp (Some resp) "status" ;; ret (truthy status)
                 else ret false) ;;
          if ok then
            paystackData <- getp (Some resp) "data" ;;
            ref0 <- getp paystackData "reference" ;;
            if negb (truthy ref0) then
              ret (JsonResp 500 (message "Failed to initiate payment: Paystack reference missing."))
            else
              reference <- getp paystackData "reference" ;;
              id <- fresh_id ;;
              _ <- payment_save id
                     {| d_studentId := Some (JStr (s_id stu)); d_paystackReference := reference;
                        d_amount := option_map JNum amountInKobo; d_currency := Some (JStr "NGN");
                        d_status := "pending"; d_semester := semester; d_academicYear := academicYear;
                        d_description := if truthy description then description
                                         else Some (fee_description semester academicYear);
                        d_paidAt := None |} ;;
              authorization_url <- getp paystackData "authorization_url" ;;
              access_code <- getp paystackData "access_code" ;;
              reference' <- getp paystackData "reference" ;;
              ret (JsonResp 200 (obj [("authorization_url", authorization_url);
                                      ("access_code", access_code);
                                      ("reference", reference');
                                      ("paymentId", Some (JNum (Z.of_nat id)))]))
          else
            details <- getp (Some resp) "message" ;;
            ret (JsonResp 500 (obj [("message", Some (JStr "Failed to initiate payment with Paystack."));
                                    ("details", details)]))
      end)
    (fun e => match e with
              (* [error.code === 11000] *)
              | DuplicateKey =>
                  ret (JsonResp 409 (message "A payment for this reference already exists or a unique constraint was violated."))
              | _ => ret (JsonResp 500 (message "Failed to initiate payment."))
              end).

Definition initiate_route (authorization : option string) (body : jv) (gateway : option jv)
  : M response :=
  protect authorization (initiate_payment body gateway).

End VariantB.

(* ------------------------------------------------------------------ *)
(** ** Sample requests and databases *)

Module Sample.

Definition secret : string := "sk_test_4f1c09".

(** A Paystack event as the webhook receives it, and its signed delivery:
    the compact JSON text and its [x-paystack-signature]. *)
Definition raw_of (ev : jv) : string := Json.stringify ev.
Definition sig_of (ev : jv) : option string := Some (hmac_sha512_hex secret (raw_of ev)).

Definition md_fall : list (string * jv) :=
  [("student_id", JStr "S1"); ("semester", JStr "Fall"); ("academic_year", JStr "2025-2026")].
Definition md_spring : list (string * jv) :=
  [("student_id", JStr "S1"); ("semester", JStr "Spring"); ("academic_year", JStr "2025-2026")].

Definition charge_data (ref : string) (md : jv) : jv :=
  JObj [("reference", JStr ref); ("amount", JNum 50000000); ("currency", JStr "NGN");
        ("paid_at", JStr "2025-09-01T10:00:00.000Z"); ("metadata", md)].
Definition success_event (ref : string) (md : jv) : jv :=
  JObj [("event", JStr "charge.success"); ("data", charge_data ref md)].
Definition failed_event (ref : string) : jv :=
  JObj [("event", JStr "charge.failed"); ("data", JObj [("reference", JStr ref)])].
Definition ignored_event : jv :=
  JObj [("event", JStr "transfer.success"); ("data", JObj [("reference", JStr "ref1")])].

Definition tx (id : nat) (ref sem status : string) : txn :=
  {| t_id := id; t_studentId := "S1"; t_paystackReference := ref; t_amount := 50000000;
     t_currency := "NGN"; t_status := status; t_semester := sem;
     t_academicYear := "2025-2026"; t_description := Some ("Fee payment for " ++ sem ++ " 2025-2026")%string;
     t_paidAt := None; t_createdAt := 1; t_updatedAt := 1 |}.

Definition student_s1 (hist : list (option nat)) : student :=
  {| s_id := "S1"; s_currentSemesterPaymentStatus := "unpaid"; s_lastPaidSemester := None;
     s_lastPaidAcademicYear := None; s_paymentHistory := hist |}.

Definition db (ps : list txn) (ss : list student) : st :=
  {| payments := ps; students := ss; next_id := 10; clock := 1000; db_up := true |}.

(** One pending Fall payment [ref1] for student S1. *)
Definition base : st := db [tx 0 "ref1" "Fall" "pending"] [student_s1 []].


Definition fall_success : jv := success_event "ref1" (JObj md_fall).


(** Student S1 has paid Fall ([ref1], id 0) and then Spring ([ref2], id 1). *)
Definition two_paid : st :=
  db [tx 0 "ref1" "Fall" "success"; tx 1 "ref2" "Spring" "success"]
     [{| s_id := "S1"; s_currentSemesterPaymentStatus := "paid";
         s_lastPaidSemester := Some "Spring"; s_lastPaidAcademicYear := Some "2025-2026";
         s_paymentHistory := [Some 0%nat; Some 1%nat] |}].

(** A request body of [POST /initiate-payment] and Paystack's answer to
    [POST /transaction/initialize]. *)
Definition init_body : jv :=
  JObj [("amount", JNum 500000); ("studentId", JStr "S1"); ("semester", JStr "Spring");
        ("academicYear", JStr "2025-2026"); ("email", JStr "ada@example.com")].
Definition init_data : jv :=
  JObj [("authorization_url", JStr "https://checkout.paystack.com/0peioxfhpn");
        ("access_code", JStr "0peioxfhpn"); ("reference", JStr "ref2")].
Definition init_answer : jv :=
  JObj [("status", JBool true); ("message", JStr "Authorization URL created"); ("data", init_data)].

End Sample.

(* ------------------------------------------------------------------ *)
(** ** Auxiliary definitions for the statements *)

(** The transaction [findOneAndUpdate({ paystackReference: r })] selects. *)
Fixpoint lookup_ref (r : string) (l : list txn) : option txn :=
  match l with
  | [] => None
  | t :: l' => if String.eqb (t_paystackReference t) r then Some t else lookup_ref r l'
  end.









(** Operations that never write the transactions collection. *)
Definition keeps_payments {A} (m : M A) : Prop := forall s, payments (snd (m s)) = payments s.

(** A request to one of the payment routes of either variant: the
    arguments each handler reads (see [VariantA] and [VariantB]). *)
Inductive request :=
| WebhookA (secret raw : string) (header : option string)
| WebhookB (secret raw : string) (header : option string)
| VerifyA (authorization : option string) (reference : string) (gateway : option jv)
| VerifyB (authorization : option string) (reference : string) (gateway : option jv)
| InitiateA (authorization : option string) (body : jv) (gateway : option jv)
| InitiateB (authorization : option string) (body : jv) (gateway : option jv).

Definition handle (q : request) : M response :=
  match q with
  | WebhookA secret raw header => VariantA.webhook_route secret raw header
  | WebhookB secret raw header => VariantB.webhook_route secret raw header
  | VerifyA a r gw => VariantA.verify_route a r gw
  | VerifyB a r gw => VariantB.verify_route a r gw
  | InitiateA a body gw => VariantA.initiate_route a body gw
  | InitiateB a body gw => VariantB.initiate_route a body gw
  end.

(** Requests handled one after another: the database afterwards. *)
Fixpoint serve (qs : list request) (s : st) : st :=
  match qs with
  | [] => s
  | q :: qs' => serve qs' (snd (run (handle q) s))
  end.

(** A property [J] of the two collections that [m] keeps. *)
Definition inv {A} (J : list txn -> list student -> Prop) (m : M A) : Prop :=
  forall s, J (payments s) (students s) -> J (payments (snd (m s))) (students (snd (m s))).

(** The fields of a Transaction that no update writes. *)
Definition txn_core (t : txn) :=
  (t_id t, t_studentId t, t_paystackReference t, t_amount t, t_currency t,
   t_semester t, t_academicYear t, t_description t, t_createdAt t).

(** The statuses the routes write. *)
Definition known_status (t : txn) : Prop :=
  t_status t = "pending" \/ t_status t = "success" \/ t_status t = "failed".

(** How a student document may change: the same id, a paid student stays
    paid, and paymentHistory only grows at its end. *)
Definition student_grows (x y : student) : Prop :=
  s_id x = s_id y /\
  (s_currentSemesterPaymentStatus x = "paid" -> s_currentSemesterPaymentStatus y = "paid") /\
  exists h, s_paymentHistory y = s_paymentHistory x ++ h.


(** A delivery answered 200 [{received: true}] has left a stored
    Transaction with reference [r] and status success. *)
Definition ack_recorded (r : string) (rs : response * st) : Prop :=
  let (resp, s') := rs in
  resp = JsonResp 200 received ->
  exists t, lookup_ref r (payments s') = Some t /\ t_status t = "success".

(* ------------------------------------------------------------------ *)
(** ** Lemmas about the model *)

(** Test vectors: FIPS 180-2 (SHA-512 of "abc"), RFC 4231 test case 2,
    and a whitespace-laden body. *)
Example sha512_abc :
  hex_of_bytes (Sha512.sha512 (bytes_of_string "abc")) =
  "ddaf35a193617abacc417349ae20413112e6fa4e89a97ea20a9eeee64b55d39a2192992a274fc1a836ba3c23a3feebbd454d4423643ce80e2a9ac94fa54ca49f"%string.
Proof. vm_compute. reflexivity. Qed.

Example hmac_rfc4231_2 :
  hmac_sha512_hex "Jefe" "what do ya want for nothing?" =
  "164b7a7bfcf819e2e395fbe73b56e0a387bd64222e831fd610270cd7ea2505549758bf75c05a994a6d034f65f8f0e6fdcaeab1a34d4a6b4b636e070a38bce737"%string.
Proof. vm_compute. reflexivity. Qed.

Example json_roundtrip_ws :
  option_map Json.stringify (Json.body_parse (dq "{ 'b' : [1, -20, true],  '2':null, 'a':'x', '1':0, 'b':{} }")) =
  Some (dq "{'1':0,'2':null,'b':{},'a':'x'}").
Proof. vm_compute. reflexivity. Qed.

Lemma parse_members_obj : forall f cs acc v r,
  Json.parse_members f cs acc = Some (v, r) -> exists l, v = JObj l.
Proof.
  induction f as [|f IH]; intros cs acc v r H; cbn [Json.parse_members] in H; [discriminate|].
  repeat match type of H with
  | context [match ?x with _ => _ end] => destruct x; try discriminate
  | Some _ = Some _ => inversion H; subst; eauto
  | _ => eapply IH; exact H
  end.
Qed.

Lemma parse_elems_arr : forall f cs acc v r,
  Json.parse_elems f cs acc = Some (v, r) -> exists l, v = JArr l.
Proof.
  induction f as [|f IH]; intros cs acc v r H; cbn [Json.parse_elems] in H; [discriminate|].
  repeat match type of H with
  | context [match ?x with _ => _ end] => destruct x; try discriminate
  | Some _ = Some _ => inversion H; subst; eauto
  | _ => eapply IH; exact H
  end.
Qed.

Ltac close_container :=
  match goal with
  | H : Some (?v, _) = Some (?w, _) |- _ => injection H as <- <-; eauto
  | H : Json.parse_members _ _ _ = Some _ |- _ => eapply parse_members_obj; exact H
  | H : Json.parse_elems _ _ _ = Some _ |- _ => eapply parse_elems_arr; exact H
  end.

Lemma parse_value_obj : forall f cs r v rest,
  Json.skip_ws cs = "{"%char :: r -> Json.parse_value (S f) cs = Some (v, rest) ->
  exists l, v = JObj l.
Proof.
  intros f cs r v rest W H. cbn [Json.parse_value] in H. rewrite W in H.
  destruct (Json.skip_ws r) as [|b r'];
    [|destruct b as [[] [] [] [] [] [] [] []]]; close_container.
Qed.

Lemma parse_value_arr : forall f cs r v rest,
  Json.skip_ws cs = "["%char :: r -> Json.parse_value (S f) cs = Some (v, rest) ->
  exists l, v = JArr l.
Proof.
  intros f cs r v rest W H. cbn [Json.parse_value] in H. rewrite W in H.
  destruct (Json.skip_ws r) as [|b r'];
    [|destruct b as [[] [] [] [] [] [] [] []]]; close_container.
Qed.

Lemma body_parse_not_null : forall raw v, Json.body_parse raw = Some v -> v <> JNull.
Proof.
  intros raw v H.
  unfold Json.body_parse in H.
  destruct (list_ascii_of_string raw) as [|c cs] eqn:E.
  - injection H as <-; discriminate.
  - unfold Json.parse in H. rewrite E in H.
    destruct (Json.skip_ws (c :: cs)) as [|a r] eqn:W; [discriminate|].
    destruct (Json.parse_value (S (List.length (c :: cs))) (c :: cs)) as [[w rest]|] eqn:P;
      [|destruct a as [[] [] [] [] [] [] [] []]; discriminate].
    assert (w = v) as <-.
    { destruct a as [[] [] [] [] [] [] [] []]; try discriminate;
        destruct (Json.skip_ws rest); congruence. }
    destruct a as [[] [] [] [] [] [] [] []]; try discriminate;
      first [ apply parse_value_obj with (r := r) in P; [|exact W]
            | apply parse_value_arr with (r := r) in P; [|exact W] ];
      destruct P as [? ->]; discriminate.
Qed.

Lemma webhook_accepts : forall h secret raw body header,
  Json.body_parse raw = Some body -> signature_ok secret body header = true ->
  webhook h secret raw header = h body.
Proof. intros h secret raw body header P S. unfold webhook. rewrite P, S. reflexivity. Qed.


Lemma getp_obj : forall v k, v <> JNull -> getp (Some v) k = ret (prop v k).
Proof. intros v k H. destruct v; try reflexivity. congruence. Qed.

Lemma bind_ret : forall A B (a : A) (k : A -> M B), bind (ret a) k = k a.
Proof. reflexivity. Qed.

(** [findOneAndUpdate] on a reference no document has. *)
Lemma update_first_none : forall r f l, lookup_ref r l = None -> update_first r f l = (None, l).
Proof.
  intros r f l. induction l as [|t l IH]; cbn; [reflexivity|].
  destruct (String.eqb (t_paystackReference t) r); [discriminate|].
  intros H. rewrite (IH H). reflexivity.
Qed.


Lemma keeps_throw : forall A e, keeps_payments (@throw A e).
Proof. intros A e s. reflexivity. Qed.
Lemma keeps_get : keeps_payments get.
Proof. intros s. reflexivity. Qed.



(* ------------------------------------------------------------------ *)
(** ** C8: ignored event types *)

(** C8: for a webhook whose signature verifies and whose [event] is
    neither [charge.success] nor [charge.failed], both variants answer 200
    [{received: true}] and leave the whole database unchanged. *)
Theorem webhook_ignored_event_no_change :
  forall secret raw body header s,
    Json.body_parse raw = Some body ->
    signature_ok secret body header = true ->
    is_str (prop body "event") "charge.success" = false ->
    is_str (prop body "event") "charge.failed" = false ->
    run (VariantA.webhook_route secret raw header) s = (JsonResp 200 received, s) /\
    run (VariantB.webhook_route secret raw header) s = (JsonResp 200 received, s).
Proof.
  intros secret raw body header s P S E1 E2.
  pose proof (body_parse_not_null raw body P) as NN.
  unfold VariantA.webhook_route, VariantB.webhook_route.
  rewrite !(webhook_accepts _ secret raw body header P S).
  unfold VariantA.webhook_event, VariantB.webhook_event.
  rewrite !getp_obj by exact NN. rewrite !bind_ret, E1, E2.
  split; reflexivity.
Qed.

(** C8 witness: an ignored [transfer.success] event on the sample database. *)
Lemma webhook_ignored_event_no_change_witness :
  run (VariantA.webhook_route Sample.secret (Sample.raw_of Sample.ignored_event)
         (Sample.sig_of Sample.ignored_event)) Sample.base = (JsonResp 200 received, Sample.base) /\
  run (VariantB.webhook_route Sample.secret (Sample.raw_of Sample.ignored_event)
         (Sample.sig_of Sample.ignored_event)) Sample.base = (JsonResp 200 received, Sample.base).
Proof.
  apply (webhook_ignored_event_no_change Sample.secret _ Sample.ignored_event);
    vm_compute; reflexivity.
Defined.

(* ------------------------------------------------------------------ *)
(** ** C9: charge.failed for an unknown reference *)

(** Evaluate the monadic plumbing of a handler on a symbolic database. *)
Ltac mrun_with_db :=
  repeat match goal with
         | H : db_up ?s = true |- context [db_up ?s] => rewrite H; cbv beta iota
         end.
Ltac mrun :=
  cbv beta iota zeta delta [run catch bind ret throw get put now db_check fresh_id
                            filter_str filter_oid cast_str cast_opt
                            find_one_and_update student_find_by_id_and_update
                            student_mark_paid];
  mrun_with_db.

(** C9: a signature-valid [charge.failed] webhook whose data names a
    reference no stored Transaction has creates nothing and changes nothing
    (no upsert on the failed branch) and is answered 200
    [{received: true}], in both variants, while the database is reachable. *)
Theorem webhook_failed_unknown_ref_no_change :
  forall secret raw body header s data r,
    Json.body_parse raw = Some body ->
    signature_ok secret body header = true ->
    prop body "event" = Some (JStr "charge.failed") ->
    prop body "data" = Some data -> data <> JNull ->
    prop data "reference" = Some (JStr r) ->
    lookup_ref r (payments s) = None ->
    db_up s = true ->
    run (VariantA.webhook_route secret raw header) s = (JsonResp 200 received, s) /\
    run (VariantB.webhook_route secret raw header) s = (JsonResp 200 received, s).
Proof.
  intros secret raw body header s data r P S E D DN R L U.
  pose proof (body_parse_not_null raw body P) as NN.
  unfold VariantA.webhook_route, VariantB.webhook_route.
  rewrite !(webhook_accepts _ secret raw body header P S).
  unfold VariantA.webhook_event, VariantB.webhook_event.
  rewrite !getp_obj by exact NN. rewrite !bind_ret, E. cbn [is_str String.eqb Ascii.eqb Bool.eqb andb].
  rewrite D, !getp_obj by exact DN. rewrite !bind_ret, R.
  mrun. rewrite update_first_none by exact L. cbv beta iota.
  destruct s; cbn in U; subst; split; reflexivity.
Qed.

(** C9 witness: [charge.failed] for [ref9], which the sample database does
    not have. *)
Lemma webhook_failed_unknown_ref_no_change_witness :
  run (VariantA.webhook_route Sample.secret (Sample.raw_of (Sample.failed_event "ref9"))
         (Sample.sig_of (Sample.failed_event "ref9"))) Sample.base = (JsonResp 200 received, Sample.base) /\
  run (VariantB.webhook_route Sample.secret (Sample.raw_of (Sample.failed_event "ref9"))
         (Sample.sig_of (Sample.failed_event "ref9"))) Sample.base = (JsonResp 200 received, Sample.base).
Proof.
  apply (webhook_failed_unknown_ref_no_change Sample.secret _ (Sample.failed_event "ref9") _ _
           (JObj [("reference", JStr "ref9")]) "ref9");
    vm_compute; first [reflexivity | discriminate].
Defined.

(* ------------------------------------------------------------------ *)
(** ** C1: no terminal guard on the status write *)

Lemma set_success_ref : forall p n x, t_paystackReference (set_success p n x) = t_paystackReference x.
Proof. reflexivity. Qed.








(* ------------------------------------------------------------------ *)
(** ** C6: client confirmation (variant A) *)





(* ------------------------------------------------------------------ *)
(** ** C10: verify without a stored record (variant B) *)





(* ------------------------------------------------------------------ *)
(** ** C5: reconstruction of a missing record *)


(* ------------------------------------------------------------------ *)
(** ** C7: initiate-payment (variant A) *)






Lemma find_student_id : forall k l x, find_student k l = Some x -> s_id x = k.
Proof.
  intros k l x. induction l as [|y l IH]; cbn; [discriminate|].
  destruct (String.eqb (s_id y) k) eqn:E; [|exact IH].
  intros H. injection H as <-. apply String.eqb_eq. exact E.
Qed.






(* ------------------------------------------------------------------ *)
(** ** C3: duplicate success triggers and the projection *)








Lemma opt_nat_eqb_refl : forall x, opt_nat_eqb x x = true.
Proof. intros [n|]; cbn; [apply Nat.eqb_refl|reflexivity]. Qed.






(* ------------------------------------------------------------------ *)
(** ** C2: what the webhook signature covers *)




(* ------------------------------------------------------------------ *)
(** ** C4: the webhook's answers *)












(* ------------------------------------------------------------------ *)
(** ** Invariants of every payment route *)

Lemma inv_ret : forall J A (a : A), inv J (ret a).
Proof. intros J A a s H. exact H. Qed.

Lemma inv_throw : forall J A e, inv J (@throw A e).
Proof. intros J A e s H. exact H. Qed.

Lemma inv_bind : forall J A B (m : M A) (k : A -> M B),
  inv J m -> (forall a, inv J (k a)) -> inv J (bind m k).
Proof.
  intros J A B m k Hm Hk s H. unfold bind.
  specialize (Hm s H). destruct (m s) as [[e|a] s'] eqn:E; cbn in *; [exact Hm|].
  apply Hk. exact Hm.
Qed.

Lemma inv_catch : forall J A (m : M A) h,
  inv J m -> (forall e, inv J (h e)) -> inv J (catch m h).
Proof.
  intros J A m h Hm Hh s H. unfold catch.
  specialize (Hm s H). destruct (m s) as [[e|a] s'] eqn:E; cbn in *; [apply Hh|]; exact Hm.
Qed.

(** An operation that writes neither collection. *)
Lemma inv_keep : forall J A (m : M A),
  (forall s, payments (snd (m s)) = payments s /\ students (snd (m s)) = students s) -> inv J m.
Proof. intros J A m K s H. destruct (K s) as [-> ->]. exact H. Qed.

Lemma inv_getp : forall J o k, inv J (getp o k).
Proof. intros J o k. apply inv_keep. intros s. destruct o as [[]|]; split; reflexivity. Qed.

Lemma inv_now : forall J, inv J now.
Proof. intros J. apply inv_keep. intros s. split; reflexivity. Qed.

Lemma inv_fresh_id : forall J, inv J fresh_id.
Proof. intros J. apply inv_keep. intros s. split; reflexivity. Qed.

Lemma inv_db_check : forall J, inv J db_check.
Proof. intros J. apply inv_keep. intros s. cbv [db_check bind get ret throw]. destruct (db_up s); split; reflexivity. Qed.

Lemma inv_filter_str : forall J v, inv J (filter_str v).
Proof.
  intros J v. apply inv_keep. intros s. unfold filter_str.
  destruct v as [x|]; [destruct x; try (split; reflexivity)|split; reflexivity];
    destruct (cast_str _); split; reflexivity.
Qed.

Lemma inv_filter_oid : forall J v, inv J (filter_oid v).
Proof. intros J v. apply inv_keep. intros s. destruct v as [[]|]; split; reflexivity. Qed.

Lemma inv_cast_opt : forall J v, inv J (cast_opt v).
Proof.
  intros J v. apply inv_keep. intros s. unfold cast_opt.
  destruct v as [x|]; [destruct x; try (split; reflexivity)|split; reflexivity];
    destruct (cast_str _); split; reflexivity.
Qed.

Lemma inv_student_find_by_id : forall J v, inv J (student_find_by_id v).
Proof.
  intros J v. unfold student_find_by_id.
  apply inv_bind; [apply inv_filter_oid|intros key].
  apply inv_bind; [apply inv_db_check|intros _].
  destruct key as [k|]; [|apply inv_ret].
  apply inv_bind; [apply inv_keep; intros s; split; reflexivity|intros]. apply inv_ret.
Qed.

Lemma inv_find_one_and_update : forall J f ref,
  (forall k ps ss, J ps ss -> J (snd (update_first k f ps)) ss) ->
  inv J (find_one_and_update ref f).
Proof.
  intros J f ref HU. unfold find_one_and_update.
  apply inv_bind; [apply inv_filter_str|intros key].
  apply inv_bind; [apply inv_db_check|intros _].
  destruct key as [k|]; [|apply inv_ret].
  intros s H. cbv [bind get put ret].
  pose proof (HU k _ _ H) as HU'.
  destruct (update_first k f (payments s)) as [o ps]. exact HU'.
Qed.

Lemma inv_student_update : forall J f id,
  (forall k ps ss, J ps ss -> J ps (snd (update_student k f ss))) ->
  inv J (student_find_by_id_and_update id f).
Proof.
  intros J f id HU. unfold student_find_by_id_and_update.
  apply inv_bind; [apply inv_filter_oid|intros key].
  apply inv_bind; [apply inv_db_check|intros _].
  destruct key as [k|]; [|apply inv_ret].
  intros s H. cbv [bind get put ret].
  pose proof (HU k _ _ H) as HU'.
  destruct (update_student k f (students s)) as [o ss]. exact HU'.
Qed.

Lemma req_string_nonempty : forall v r, req_string v = Some r -> r <> ""%string.
Proof.
  intros v r. unfold req_string. destruct v as [x|]; [|discriminate].
  destruct (cast_str x) as [[|c w]|]; try discriminate.
  intros H. injection H as <-. discriminate.
Qed.

(** What [validate] keeps of the draft. *)
Lemma validate_fields : forall id n d t, validate id n d = Some t ->
  t_status t = d_status d /\ req_string (d_paystackReference d) = Some (t_paystackReference t).
Proof.
  intros id n d t H. unfold validate in H.
  destruct (req_oid (d_studentId d)), (req_string (d_paystackReference d)) eqn:R,
    (req_number (d_amount d)), (req_string (with_default (d_currency d) "NGN")),
    (req_string (d_semester d)), (req_string (d_academicYear d)), (opt_string (d_description d));
    try discriminate.
  injection H as <-. split; reflexivity.
Qed.

Lemma inv_payment_save : forall J id d,
  (forall ps ss t, J ps ss -> t_status t = d_status d -> t_paystackReference t <> ""%string ->
     existsb (fun t' => String.eqb (t_paystackReference t') (t_paystackReference t)) ps = false ->
     J (ps ++ [t]) ss) ->
  inv J (payment_save id d).
Proof.
  intros J id d HS s H. unfold payment_save. cbv [bind now get ret throw db_check put].
  destruct (validate id (clock s) d) as [t|] eqn:V; [|exact H].
  destruct (db_up s); [|exact H].
  destruct (existsb _ (payments s)) eqn:E; [exact H|].
  cbn. destruct (validate_fields _ _ _ _ V) as [S R].
  apply HS; try assumption. exact (req_string_nonempty _ _ R).
Qed.

Section RouteInvariants.

Variable J : list txn -> list student -> Prop.

Hypothesis J_success : forall p n k ps ss,
  J ps ss -> J (snd (update_first k (set_success p n) ps)) ss.
Hypothesis J_failed : forall n k ps ss,
  J ps ss -> J (snd (update_first k (set_failed n) ps)) ss.
Hypothesis J_mark : forall sem yr pid k ps ss,
  J ps ss -> J ps (snd (update_student k (mark_paid sem yr pid) ss)).
Hypothesis J_save : forall ps ss t,
  J ps ss -> t_status t = "pending" \/ t_status t = "success" ->
  t_paystackReference t <> ""%string ->
  existsb (fun t' => String.eqb (t_paystackReference t') (t_paystackReference t)) ps = false ->
  J (ps ++ [t]) ss.

Ltac inv_step :=
  match goal with
  | |- inv _ (bind _ _) => apply inv_bind; [|intro; cbv beta]
  | |- inv _ (catch _ _) => apply inv_catch; [|intro; cbv beta]
  | |- inv _ (ret _) => apply inv_ret
  | |- inv _ (throw _) => apply inv_throw
  | |- inv _ (getp _ _) => apply inv_getp
  | |- inv _ now => apply inv_now
  | |- inv _ fresh_id => apply inv_fresh_id
  | |- inv _ (cast_opt _) => apply inv_cast_opt
  | |- inv _ (student_find_by_id _) => apply inv_student_find_by_id
  | |- inv _ (student_mark_paid _ _ _ _) => unfold student_mark_paid
  | |- inv _ (student_find_by_id_and_update _ _) =>
      apply inv_student_update; intros ? ? ?; apply J_mark
  | |- inv _ (find_one_and_update _ (set_success _ _)) =>
      apply inv_find_one_and_update; intros ? ? ?; apply J_success
  | |- inv _ (find_one_and_update _ (set_failed _)) =>
      apply inv_find_one_and_update; intros ? ? ?; apply J_failed
  | |- inv _ (payment_save _ _) =>
      apply inv_payment_save; intros ps ss t HJ HS; apply J_save; [exact HJ|cbn in HS; auto]
  | |- inv _ (let _ := _ in _) => cbv zeta
  | |- inv _ (match ?x with _ => _ end) => destruct x
  end.

Lemma handle_inv : forall q, inv J (handle q).
Proof.
  destruct q; unfold handle;
    unfold VariantA.webhook_route, VariantB.webhook_route, webhook,
      VariantA.webhook_event, VariantB.webhook_event, VariantA.charge_success, VariantB.charge_success,
      VariantA.verify_route, VariantB.verify_route, VariantA.verify_payment, VariantB.verify_payment,
      VariantA.initiate_route, VariantB.initiate_route, protect,
      VariantA.initiate_payment, VariantB.initiate_payment;
    repeat inv_step.
Qed.

Lemma serve_inv : forall qs s, J (payments s) (students s) ->
  J (payments (serve qs s)) (students (serve qs s)).
Proof.
  induction qs as [|q qs IH]; intros s H; cbn [serve]; [exact H|].
  apply IH. unfold run. pose proof (handle_inv q s H) as H'.
  destruct (handle q s) as [[e|r] s']; exact H'.
Qed.

End RouteInvariants.

Lemma update_first_map : forall X (g : txn -> X) f k l,
  (forall t, g (f t) = g t) -> map g (snd (update_first k f l)) = map g l.
Proof.
  intros X g f k l Hg. induction l as [|t l IH]; cbn; [reflexivity|].
  destruct (String.eqb (t_paystackReference t) k).
  - cbn. rewrite Hg. reflexivity.
  - destruct (update_first k f l) as [o l']. cbn in *. rewrite IH. reflexivity.
Qed.

Lemma update_first_forall : forall (P : txn -> Prop) f k l,
  (forall t, P (f t)) -> Forall P l -> Forall P (snd (update_first k f l)).
Proof.
  intros P f k l Hf. induction l as [|t l IH]; intros H; cbn; [constructor|].
  inversion H as [|? ? Ht Hl]; subst.
  destruct (String.eqb (t_paystackReference t) k).
  - constructor; [apply Hf|assumption].
  - specialize (IH Hl). destruct (update_first k f l) as [o l']. cbn in *. constructor; assumption.
Qed.

Lemma update_student_forall2 : forall (R : student -> student -> Prop) f k l,
  (forall x, R x x) -> (forall x, R x (f x)) -> Forall2 R l (snd (update_student k f l)).
Proof.
  intros R f k l Hr Hf. induction l as [|x l IH]; cbn; [constructor|].
  destruct (String.eqb (s_id x) k).
  - constructor; [apply Hf|]. clear IH. induction l; constructor; auto.
  - destruct (update_student k f l) as [o l']. cbn in *. constructor; auto.
Qed.

Lemma update_student_forall : forall (P : student -> Prop) f k l,
  (forall x, P x -> P (f x)) -> Forall P l -> Forall P (snd (update_student k f l)).
Proof.
  intros P f k l Hf. induction l as [|x l IH]; intros H; cbn; [constructor|].
  inversion H as [|? ? Hx Hl]; subst.
  destruct (String.eqb (s_id x) k).
  - constructor; auto.
  - specialize (IH Hl). destruct (update_student k f l) as [o l']. cbn in *. constructor; assumption.
Qed.

Lemma nodup_snoc : forall A (l : list A) x, NoDup l -> ~ In x l -> NoDup (l ++ [x]).
Proof.
  intros A l x. induction l as [|y l IH]; intros N NI; cbn.
  - constructor; [intros []|constructor].
  - inversion N as [|? ? Ny Nl]; subst. constructor.
    + rewrite in_app_iff. intros [H|[H|[]]]; [tauto|]. subst. apply NI. left. reflexivity.
    + apply IH; [assumption|]. intros H. apply NI. right. exact H.
Qed.

Lemma existsb_ref_not_in : forall ps r,
  existsb (fun t' => String.eqb (t_paystackReference t') r) ps = false ->
  ~ In r (map t_paystackReference ps).
Proof.
  intros ps r E I. apply in_map_iff in I. destruct I as [t' [Et It]].
  assert (existsb (fun t' => String.eqb (t_paystackReference t') r) ps = true) as T.
  { apply existsb_exists. exists t'. split; [exact It|]. apply String.eqb_eq. exact Et. }
  congruence.
Qed.

Lemma opt_nat_eqb_eq : forall x y, opt_nat_eqb x y = true -> x = y.
Proof.
  intros [x|] [y|]; cbn; try discriminate; [|reflexivity].
  intros H. apply Nat.eqb_eq in H. subst. reflexivity.
Qed.

Lemma add_to_set_nodup : forall x l, NoDup l -> NoDup (add_to_set x l).
Proof.
  intros x l N. unfold add_to_set. destruct (existsb (opt_nat_eqb x) l) eqn:E; [exact N|].
  apply nodup_snoc; [exact N|]. intros I.
  assert (existsb (opt_nat_eqb x) l = true) as T.
  { apply existsb_exists. exists x. split; [exact I|]. apply opt_nat_eqb_refl. }
  congruence.
Qed.

Lemma student_grows_refl : forall x, student_grows x x.
Proof. intros x. split; [reflexivity|split; [auto|exists []; rewrite app_nil_r; reflexivity]]. Qed.

Lemma student_grows_trans : forall x y z, student_grows x y -> student_grows y z -> student_grows x z.
Proof.
  intros x y z [I1 [P1 [h1 H1]]] [I2 [P2 [h2 H2]]].
  split; [congruence|split; [auto|]]. exists (h1 ++ h2). rewrite H2, H1, app_assoc. reflexivity.
Qed.

Lemma forall2_grows_trans : forall l1 l2 l3,
  Forall2 student_grows l1 l2 -> Forall2 student_grows l2 l3 -> Forall2 student_grows l1 l3.
Proof.
  intros l1 l2 l3 H12. revert l3. induction H12 as [|x y l1 l2 Hxy H IH]; intros l3 H23;
    inversion H23 as [|? z ? l3' Hyz H']; subst; constructor.
  - eapply student_grows_trans; eassumption.
  - apply IH. exact H'.
Qed.

Lemma mark_paid_grows : forall sem yr pid x, student_grows x (mark_paid sem yr pid x).
Proof.
  intros sem yr pid x. split; [reflexivity|split; [reflexivity|]]. cbn. unfold add_to_set.
  destruct (existsb _ _); [exists []; rewrite app_nil_r|exists [pid]]; reflexivity.
Qed.

(** X1: whatever requests to the payment routes are handled, one after
    another, the paystackReference values stored stay pairwise distinct:
    updates never change a reference, and a save under a stored reference
    is refused by the unique index. *)
Theorem serve_keeps_references_unique : forall qs s,
  NoDup (map t_paystackReference (payments s)) ->
  NoDup (map t_paystackReference (payments (serve qs s))).
Proof.
  intros qs s H.
  apply (serve_inv (fun ps _ => NoDup (map t_paystackReference ps))); [..|exact H]; cbv beta.
  - intros p n k ps ss N. rewrite update_first_map by reflexivity. exact N.
  - intros n k ps ss N. rewrite update_first_map by reflexivity. exact N.
  - intros sem yr pid k ps ss N. exact N.
  - intros ps ss t N _ _ E. rewrite map_app. apply nodup_snoc; [exact N|].
    apply existsb_ref_not_in. exact E.
Qed.

(** X2: the routes write only the statuses pending, success and failed. *)
Theorem serve_statuses_known : forall qs s,
  Forall known_status (payments s) -> Forall known_status (payments (serve qs s)).
Proof.
  intros qs s H.
  apply (serve_inv (fun ps _ => Forall known_status ps)); [..|exact H]; cbv beta.
  - intros p n k ps ss F. apply update_first_forall; [|exact F].
    intros t. right. left. reflexivity.
  - intros n k ps ss F. apply update_first_forall; [|exact F].
    intros t. right. right. reflexivity.
  - intros sem yr pid k ps ss F. exact F.
  - intros ps ss t F S _ _. apply Forall_app. split; [exact F|].
    constructor; [|constructor]. unfold known_status. tauto.
Qed.

(** X3: [$addToSet] keeps every student's paymentHistory free of
    duplicates, whatever requests are handled. *)
Theorem serve_history_no_duplicates : forall qs s,
  Forall (fun x => NoDup (s_paymentHistory x)) (students s) ->
  Forall (fun x => NoDup (s_paymentHistory x)) (students (serve qs s)).
Proof.
  intros qs s H.
  apply (serve_inv (fun _ ss => Forall (fun x => NoDup (s_paymentHistory x)) ss)); [..|exact H];
    cbv beta.
  - intros p n k ps ss F. exact F.
  - intros n k ps ss F. exact F.
  - intros sem yr pid k ps ss F. apply update_student_forall; [|exact F].
    intros x N. apply add_to_set_nodup. exact N.
  - intros ps ss t F _ _ _. exact F.
Qed.

(** X4: no request deletes, reorders or rewrites a stored Transaction:
    its id, student, reference, amount, currency, semester, academic year,
    description and creation time stay as they are (only status, paidAt
    and updatedAt are written), and new Transactions are appended. *)
Theorem serve_keeps_stored_transactions : forall qs s,
  exists tail, map txn_core (payments (serve qs s)) = map txn_core (payments s) ++ tail.
Proof.
  intros qs s.
  apply (serve_inv (fun ps _ => exists tail, map txn_core ps = map txn_core (payments s) ++ tail));
    cbv beta.
  - intros p n k ps ss [tl E]. exists tl. rewrite update_first_map by reflexivity. exact E.
  - intros n k ps ss [tl E]. exists tl. rewrite update_first_map by reflexivity. exact E.
  - intros sem yr pid k ps ss E. exact E.
  - intros ps ss t [tl E] _ _ _. exists (tl ++ [txn_core t]).
    rewrite map_app, E, app_assoc. reflexivity.
  - exists []. rewrite app_nil_r. reflexivity.
Qed.

(** X5: no request adds, removes or reorders students; a student keeps
    its id, a paid student stays paid, and paymentHistory only grows at
    its end. *)
Theorem serve_students_only_grow : forall qs s,
  Forall2 student_grows (students s) (students (serve qs s)).
Proof.
  intros qs s.
  apply (serve_inv (fun _ ss => Forall2 student_grows (students s) ss)); cbv beta.
  - intros p n k ps ss F. exact F.
  - intros n k ps ss F. exact F.
  - intros sem yr pid k ps ss F. eapply forall2_grows_trans; [exact F|].
    apply update_student_forall2; [apply student_grows_refl|apply mark_paid_grows].
  - intros ps ss t F _ _ _. exact F.
  - induction (students s); constructor; [apply student_grows_refl|assumption].
Qed.

(** X1 witness: a signed charge.success for ref1 (variant A) and an
    initiate-payment storing ref2 (variant B), from the sample database. *)
Lemma serve_keeps_references_unique_witness :
  NoDup (map t_paystackReference (payments (serve
    [WebhookA Sample.secret (Sample.raw_of Sample.fall_success) (Sample.sig_of Sample.fall_success);
     InitiateB (Some "Bearer eyJhbGciOi") Sample.init_body (Some Sample.init_answer)] Sample.base))).
Proof.
  apply serve_keeps_references_unique. vm_compute. constructor; [intros []|constructor].
Defined.

(** X2 witness: the same requests. *)
Lemma serve_statuses_known_witness :
  Forall known_status (payments (serve
    [WebhookA Sample.secret (Sample.raw_of Sample.fall_success) (Sample.sig_of Sample.fall_success);
     InitiateB (Some "Bearer eyJhbGciOi") Sample.init_body (Some Sample.init_answer)] Sample.base)).
Proof.
  apply serve_statuses_known. vm_compute. constructor; [left; reflexivity|constructor].
Defined.

(** X3 witness: the same requests. *)
Lemma serve_history_no_duplicates_witness :
  Forall (fun x => NoDup (s_paymentHistory x)) (students (serve
    [WebhookA Sample.secret (Sample.raw_of Sample.fall_success) (Sample.sig_of Sample.fall_success);
     InitiateB (Some "Bearer eyJhbGciOi") Sample.init_body (Some Sample.init_answer)] Sample.base)).
Proof.
  apply serve_history_no_duplicates. vm_compute. constructor; constructor.
Defined.

(* ------------------------------------------------------------------ *)
(** ** What a single request does *)

Lemma truthy_not_null : forall v, truthy (Some v) = true -> v <> JNull.
Proof. intros v H E. subst. discriminate. Qed.

Lemma validate_spec : forall id n d t, validate id n d = Some t ->
  t_id t = id /\ t_status t = d_status d /\
  req_oid (d_studentId d) = Some (t_studentId t) /\
  req_string (d_paystackReference d) = Some (t_paystackReference t) /\
  req_number (d_amount d) = Some (t_amount t) /\
  req_string (with_default (d_currency d) "NGN") = Some (t_currency t).
Proof.
  intros id n d t H. unfold validate in H.
  destruct (req_oid (d_studentId d)), (req_string (d_paystackReference d)),
    (req_number (d_amount d)), (req_string (with_default (d_currency d) "NGN")),
    (req_string (d_semester d)), (req_string (d_academicYear d)), (opt_string (d_description d));
    try discriminate.
  injection H as <-. repeat split.
Qed.


Ltac split_atomic :=
  match goal with
  | |- context [match ?x with _ => _ end] =>
      lazymatch x with
      | context [match _ with _ => _ end] => fail
      | _ => let E := fresh "E" in destruct x eqn:E
      end
  end.


Lemma getp_none : forall k, getp None k = throw TypeError.
Proof. reflexivity. Qed.
Lemma getp_null : forall k, getp (Some JNull) k = throw TypeError.
Proof. reflexivity. Qed.

Ltac getp_step :=
  match goal with
  | |- context [getp None ?k] => rewrite (getp_none k)
  | |- context [getp (Some JNull) ?k] => rewrite (getp_null k)
  | H : ?v <> JNull |- context [getp (Some ?v) ?k] => rewrite (getp_obj v k H)
  | H : truthy (Some ?v) = true |- context [getp (Some ?v) ?k] =>
      rewrite (getp_obj v k (truthy_not_null v H))
  | |- context [getp (Some ?v) ?k] =>
      let N := fresh "N" in
      assert (N : v = JNull \/ v <> JNull) by (destruct v; [left; reflexivity|right; discriminate ..]);
      destruct N as [N|N]; [first [subst v | rewrite N in *]; rewrite (getp_null k) | rewrite (getp_obj v k N)]
  | |- context [getp ?o ?k] =>
      let E := fresh "E" in destruct o eqn:E
  end.











Lemma lookup_ref_some_existsb : forall r l t,
  lookup_ref r l = Some t -> existsb (fun t' => String.eqb (t_paystackReference t') r) l = true.
Proof.
  intros r l t. induction l as [|x l IH]; cbn; [discriminate|].
  destruct (String.eqb (t_paystackReference x) r); [reflexivity|exact IH].
Qed.

(** X8: when Paystack hands back a reference that a stored Transaction
    already has, the save is refused by the unique index: variant B
    answers 409 and variant A answers 500, and neither changes the
    payments or the students. *)
Theorem initiate_duplicate_reference : forall body s sid stu a sem yr resp pdata ref t0,
  body <> JNull ->
  prop body "amount" = Some (JNum a) -> 0 < a ->
  prop body "studentId" = Some (JStr sid) -> sid <> ""%string ->
  prop body "semester" = Some (JStr sem) -> sem <> ""%string ->
  prop body "academicYear" = Some (JStr yr) -> yr <> ""%string ->
  truthy (prop body "email") = true ->
  (prop body "description" = None \/ exists d, prop body "description" = Some (JStr d)) ->
  db_up s = true -> find_student sid (students s) = Some stu ->
  truthy (Some resp) = true -> truthy (prop resp "status") = true ->
  prop resp "data" = Some pdata -> pdata <> JNull ->
  prop pdata "reference" = Some (JStr ref) -> ref <> ""%string ->
  lookup_ref ref (payments s) = Some t0 ->
  fst (run (VariantB.initiate_payment body (Some resp)) s) =
    JsonResp 409 (message "A payment for this reference already exists or a unique constraint was violated.") /\
  payments (snd (run (VariantB.initiate_payment body (Some resp)) s)) = payments s /\
  students (snd (run (VariantB.initiate_payment body (Some resp)) s)) = students s /\
  fst (run (VariantA.initiate_payment body (Some resp)) s) =
    JsonResp 500 (message "Failed to initiate payment.") /\
  payments (snd (run (VariantA.initiate_payment body (Some resp)) s)) = payments s /\
  students (snd (run (VariantA.initiate_payment body (Some resp)) s)) = students s.
Proof.
  intros body s sid stu a sem yr resp pdata ref t0 BN A AP SID SNE SEM SEMNE YR YRNE EM DESC U F
         RT RS D DN R RNE L.
  pose proof (truthy_not_null _ RT) as RN.
  pose proof (find_student_id _ _ _ F) as SI.
  pose proof (lookup_ref_some_existsb _ _ _ L) as EX.
  unfold VariantA.initiate_payment, VariantB.initiate_payment.
  rewrite !(getp_obj _ _ BN), !bind_ret. rewrite A, SID, SEM, YR, EM.
  destruct a as [|pa|na]; try lia.
  destruct sid as [|c1 r1]; [congruence|]. destruct sem as [|c2 r2]; [congruence|].
  destruct yr as [|c3 r3]; [congruence|]. destruct ref as [|c4 r4]; [congruence|].
  change (truthy (Some (JNum (Z.pos pa)))) with true.
  change (truthy (Some (JStr (String c1 r1)))) with true.
  change (truthy (Some (JStr (String c2 r2)))) with true.
  change (truthy (Some (JStr (String c3 r3)))) with true.
  change (VariantA.le_zero (Some (JNum (Z.pos pa)))) with false. cbn [negb orb].
  cbv beta iota zeta delta [run catch bind ret throw get put now fresh_id
                            student_find_by_id filter_oid db_check].
  rewrite U, F. cbv beta iota. rewrite RT, (getp_obj _ _ RN). cbv beta iota delta [ret].
  rewrite RS. rewrite (getp_obj _ _ RN). cbv beta iota delta [ret]. rewrite D.
  rewrite !(getp_obj _ _ DN). cbv beta iota delta [ret]. rewrite R.
  change (truthy (Some (JStr (String c4 r4)))) with true. cbn [negb].
  unfold payment_save. cbv beta iota zeta delta [bind ret throw get put now db_check].
  cbn [payments students next_id clock db_up].
  destruct DESC as [DE|[d DE]]; rewrite DE; [|destruct d as [|c5 r5]];
  cbv beta iota zeta delta [validate req_oid req_string req_number opt_string with_default
                            cast_str option_map truthy fee_description js_str js_to_string VariantA.to_number
                            d_studentId d_paystackReference d_amount d_currency d_status
                            d_semester d_academicYear d_description d_paidAt];
  rewrite SI; cbn [String.eqb Ascii.eqb Bool.eqb andb]; cbv beta iota zeta;
  cbn [payments students next_id clock db_up t_paystackReference]; rewrite ?U; cbv beta iota;
  cbn [payments students next_id clock db_up]; rewrite EX; cbv beta iota;
  repeat split.
Qed.

(** X8 witness: ref2 is already stored when Paystack returns it again. *)
Lemma initiate_duplicate_reference_witness :
  fst (run (VariantB.initiate_payment Sample.init_body (Some Sample.init_answer)) Sample.two_paid) =
    JsonResp 409 (message "A payment for this reference already exists or a unique constraint was violated.") /\
  payments (snd (run (VariantB.initiate_payment Sample.init_body (Some Sample.init_answer)) Sample.two_paid))
    = payments Sample.two_paid /\
  students (snd (run (VariantB.initiate_payment Sample.init_body (Some Sample.init_answer)) Sample.two_paid))
    = students Sample.two_paid /\
  fst (run (VariantA.initiate_payment Sample.init_body (Some Sample.init_answer)) Sample.two_paid) =
    JsonResp 500 (message "Failed to initiate payment.") /\
  payments (snd (run (VariantA.initiate_payment Sample.init_body (Some Sample.init_answer)) Sample.two_paid))
    = payments Sample.two_paid /\
  students (snd (run (VariantA.initiate_payment Sample.init_body (Some Sample.init_answer)) Sample.two_paid))
    = students Sample.two_paid.
Proof.
  apply (initiate_duplicate_reference Sample.init_body Sample.two_paid "S1"
           (hd (Sample.student_s1 []) (students Sample.two_paid)) 500000 "Spring" "2025-2026"
           Sample.init_answer Sample.init_data "ref2" (Sample.tx 1 "ref2" "Spring" "success"));
    vm_compute; first [reflexivity | discriminate | lia | left; reflexivity].
Defined.

Lemma update_first_found : forall k f l x l',
  (forall t, t_paystackReference (f t) = t_paystackReference t) ->
  update_first k f l = (Some x, l') -> lookup_ref k l' = Some x /\ exists t, x = f t.
Proof.
  intros k f l x l' Hf. revert l'. induction l as [|t l IH]; intros l'; cbn; [discriminate|].
  destruct (String.eqb (t_paystackReference t) k) eqn:E.
  - intros H. injection H as <- <-. cbn. rewrite Hf, E. split; [reflexivity|exists t; reflexivity].
  - destruct (update_first k f l) as [o r] eqn:U. intros H. injection H as -> <-. cbn. rewrite E.
    apply IH. reflexivity.
Qed.

Lemma update_first_missing : forall k f l l',
  update_first k f l = (None, l') -> l' = l /\ lookup_ref k l = None.
Proof.
  intros k f l l'. revert l'. induction l as [|t l IH]; intros l'; cbn.
  - intros H. injection H as <-. split; reflexivity.
  - destruct (String.eqb (t_paystackReference t) k) eqn:E; [discriminate|].
    destruct (update_first k f l) as [o r] eqn:U. intros H. injection H as -> <-.
    destruct (IH r eq_refl) as [-> L]. split; [reflexivity|exact L].
Qed.

Lemma lookup_ref_snoc : forall k l t,
  lookup_ref k l = None -> t_paystackReference t = k -> lookup_ref k (l ++ [t]) = Some t.
Proof.
  intros k l t L R. induction l as [|x l IH]; cbn in *.
  - rewrite R, String.eqb_refl. reflexivity.
  - destruct (String.eqb (t_paystackReference x) k); [discriminate|]. apply IH. exact L.
Qed.

Lemma req_string_str : forall x y, req_string (Some (JStr x)) = Some y -> y = x.
Proof. intros x y. cbn. destruct x; congruence. Qed.

Ltac glue_w :=
  cbv beta iota zeta delta [run catch bind ret throw get put now fresh_id db_check
                            payment_save find_one_and_update filter_str cast_str
                            student_mark_paid cast_opt student_find_by_id_and_update filter_oid];
  cbn [payments students next_id clock db_up].

Ltac prop_rw :=
  match goal with
  | H : prop ?v ?k = _ |- context [prop ?v ?k] => rewrite H
  end.

Ltac leaf_recorded :=
  intros ?;
  match goal with
  | U : update_first _ _ _ = (Some ?x, _) |- _ =>
      destruct (update_first_found _ _ _ _ _ (set_success_ref _ _) U) as [L [t0 ->]];
      eexists; split; [exact L|reflexivity]
  | U : update_first _ _ _ = (None, _) , V : validate _ _ _ = Some ?t |- _ =>
      destruct (update_first_missing _ _ _ _ U) as [-> L];
      destruct (validate_spec _ _ _ _ V) as (_ & Hst & _ & Href & _);
      cbn [d_paystackReference d_status] in Href, Hst;
      apply req_string_str in Href;
      exists t; split; [apply lookup_ref_snoc; assumption|exact Hst]
  end.

(** X9: in both variants, when a parsed charge.success delivery for
    reference r is answered 200, a Transaction with reference r and status
    success is stored afterwards: either the one found and updated, or the
    one reconstructed from the event. *)
Theorem webhook_success_ack_recorded : forall secret raw header body data r s,
  Json.body_parse raw = Some body ->
  prop body "event" = Some (JStr "charge.success") ->
  prop body "data" = Some data -> data <> JNull ->
  prop data "reference" = Some (JStr r) ->
  ack_recorded r (run (VariantA.webhook_route secret raw header) s) /\
  ack_recorded r (run (VariantB.webhook_route secret raw header) s).
Proof.
  intros secret raw header body data r s P EV D DN R. cbv [ack_recorded].
  pose proof (body_parse_not_null raw body P) as BN.
  unfold VariantA.webhook_route, VariantB.webhook_route, webhook. rewrite P.
  destruct (signature_ok secret body header);
    [|split; cbv [run ret]; intros H; discriminate].
  unfold VariantA.webhook_event, VariantB.webhook_event, VariantA.charge_success, VariantB.charge_success.
  rewrite !(getp_obj _ _ BN), !bind_ret, EV.
  change (is_str (Some (JStr "charge.success")) "charge.success") with true.
  rewrite D. glue_w.
  split.
  - repeat (first [prop_rw | getp_step | split_atomic]; glue_w).
    all: first [intros H; discriminate | leaf_recorded].
  - repeat (first [prop_rw | getp_step | split_atomic]; glue_w).
    all: first [intros H; discriminate | leaf_recorded].
Qed.

(** X9 witness: the signed charge.success for ref1 on the sample database. *)
Lemma webhook_success_ack_recorded_witness :
  ack_recorded "ref1" (run (VariantA.webhook_route Sample.secret (Sample.raw_of Sample.fall_success)
                              (Sample.sig_of Sample.fall_success)) Sample.base) /\
  ack_recorded "ref1" (run (VariantB.webhook_route Sample.secret (Sample.raw_of Sample.fall_success)
                              (Sample.sig_of Sample.fall_success)) Sample.base).
Proof.
  apply (webhook_success_ack_recorded Sample.secret (Sample.raw_of Sample.fall_success)
           (Sample.sig_of Sample.fall_success) Sample.fall_success
           (Sample.charge_data "ref1" (JObj Sample.md_fall)) "ref1" Sample.base);
    vm_compute; first [reflexivity | discriminate].
Defined.

Lemma update_first_hit : forall k f l x l',
  update_first k f l = (Some x, l') -> lookup_ref k l <> None.
Proof.
  intros k f l x l'. revert l'. induction l as [|t l IH]; intros l'; cbn; [discriminate|].
  destruct (String.eqb (t_paystackReference t) k); [discriminate|].
  destruct (update_first k f l) as [o r] eqn:U. intros H. injection H as -> <-.
  apply (IH r eq_refl).
Qed.

Ltac leaf_verifyB :=
  intros ? ?;
  match goal with
  | H : JsonResp 200 _ = JsonResp 200 _ |- _ => injection H as <-
  end;
  match goal with
  | U : update_first _ _ _ = (Some ?x, _) |- _ =>
      pose proof (update_first_hit _ _ _ _ _ U) as Hh;
      destruct (update_first_found _ _ _ _ _ (set_success_ref _ _) U) as [L [t0 ->]];
      split; [intros Hn; contradiction
             |intros _; eexists; split; [exact L|split; reflexivity]]
  | U : update_first _ _ _ = (None, _) |- _ =>
      destruct (update_first_missing _ _ _ _ U) as [-> L];
      split; [intros _; split; reflexivity|intros Hn; contradiction]
  end.

Ltac leaf_verify :=
  intros ? ?;
  match goal with
  | H : JsonResp 200 _ = JsonResp 200 _ |- _ => injection H as <-
  end;
  match goal with
  | U : update_first _ _ _ = (Some ?x, _) |- _ =>
      destruct (update_first_found _ _ _ _ _ (set_success_ref _ _) U) as [L [t0 ->]];
      eexists; split; [exact L|split; reflexivity]
  end.

(** X10: what a 200 from verify-payment guarantees. In variant A the
    reference then has a stored Transaction with status success, returned
    as the answer's payment. In variant B the same holds when the reference
    was stored; when it was not, the payments are unchanged and the answer's
    payment is null. *)
Theorem verify_ok_marks_success : forall authorization reference gateway s,
  (let '(resp, s') := run (VariantA.verify_route authorization reference gateway) s in
   forall b, resp = JsonResp 200 b ->
   exists t, lookup_ref reference (payments s') = Some t /\ t_status t = "success" /\
             prop b "payment" = Some (txn_json t)) /\
  (let '(resp, s') := run (VariantB.verify_route authorization reference gateway) s in
   forall b, resp = JsonResp 200 b ->
   (lookup_ref reference (payments s) = None ->
      payments s' = payments s /\ prop b "payment" = Some JNull) /\
   (lookup_ref reference (payments s) <> None ->
      exists t, lookup_ref reference (payments s') = Some t /\ t_status t = "success" /\
                prop b "payment" = Some (txn_json t))).
Proof.
  intros authorization reference gateway s.
  unfold VariantA.verify_route, VariantB.verify_route, protect.
  destruct authorization as [a|]; [|split; cbv [run ret]; intros ? ?; discriminate].
  destruct (String.prefix "Bearer" a); [|split; cbv [run ret]; intros ? ?; discriminate].
  unfold VariantA.verify_payment, VariantB.verify_payment.
  destruct gateway as [g|]; [|split; cbv [run ret catch bind throw]; intros ? ?; discriminate].
  glue_w. split.
  - repeat (first [prop_rw | getp_step | split_atomic]; glue_w).
    all: first [intros ? ?; discriminate | leaf_verify].
  - repeat (first [prop_rw | getp_step | split_atomic]; glue_w).
    all: first [intros ? ?; discriminate | leaf_verifyB].
Qed.
